(** * BatterX device module (packages/modules/devices/batterx/device.py)

    Shallow embedding of the BatterX [Device] class and of the legacy
    entry point [read_legacy].  Python exceptions are the [Err] branch of a
    small state/writer/exception monad: the state is the [Device] object the
    code mutates ([self] in the methods, [dev] in [read_legacy]); the writer
    output is the list of observable events (log lines, HTTP requests,
    component updates, published values, update-slot bookkeeping). *)

From Stdlib Require Import String Ascii List ZArith NArith Bool Lia.
Import ListNotations.
Open Scope string_scope.

(** ** Python values and exceptions *)

Inductive pyval : Type :=
| PyStr (s : string)
| PyInt (z : Z)
| PyNone.

Inductive pyexn : Type :=
| KeyError (k : pyval)
| AttributeError (attr : string)
| TypeError (msg : string)
| RuntimeError (msg : string)
| Exception (msg : string)
| Raised (kind : string) (msg : string).  (* raised by a collaborator *)

Inductive result (A : Type) : Type :=
| Ok (a : A)
| Err (e : pyexn).
Arguments Ok {A} a.
Arguments Err {A} e.

(** [str(i)] for a Python [int]: decimal digits, with a leading minus. *)
Fixpoint dec_digits (fuel : nat) (n : N) (acc : string) : string :=
  match fuel with
  | O => acc
  | S f =>
      let acc' := String (ascii_of_N (48 + N.modulo n 10)) acc in
      if N.ltb n 10 then acc' else dec_digits f (N.div n 10) acc'
  end.

Definition str_N (n : N) : string := dec_digits (S (N.size_nat n)) n "".

Definition str_int (z : Z) : string :=
  if Z.ltb z 0 then "-" ++ str_N (Z.to_N (Z.opp z)) else str_N (Z.to_N z).

(** Reading a string of decimal digits back, most significant first
    (the inverse of [str_N], used to show that [str] is injective). *)
Fixpoint dec_value (v : N) (s : string) : N :=
  match s with
  | EmptyString => v
  | String c s' => dec_value (v * 10 + (N_of_ascii c - 48)) s'
  end.

(** [str(x)] for an [Optional[int]]. *)
Definition str_opt_int (i : option Z) : string :=
  match i with Some z => str_int z | None => "None" end.

(** ** Python dicts: insertion-ordered association lists *)

Definition dict (V : Type) : Type := list (string * V).

Fixpoint dict_get {V} (k : string) (d : dict V) : option V :=
  match d with
  | [] => None
  | (k', v) :: d' => if String.eqb k k' then Some v else dict_get k d'
  end.

(** [d[k] = v]: an existing key keeps its position, a new key goes last. *)
Fixpoint dict_set {V} (k : string) (v : V) (d : dict V) : dict V :=
  match d with
  | [] => [(k, v)]
  | (k', v') :: d' => if String.eqb k k' then (k, v) :: d' else (k', v') :: dict_set k v d'
  end.

(** Lookup with an arbitrary Python key in a dict whose keys are strings. *)
Definition py_dict_get {V} (k : pyval) (d : dict V) : option V :=
  match k with PyStr s => dict_get s d | _ => None end.

(** ** Data model (modules/devices/batterx/config.py) *)

Record comp_config : Type := {
  cc_type : string;
  cc_id : option Z;
  cc_params : list (string * pyval)
}.

(** A component configuration as [add_component] receives it:
    [Union[Dict, BatterXBatSetup, BatterXCounterSetup, BatterXInverterSetup]]. *)
Inductive cfg_in : Type :=
| CfgDict (fields : list (string * pyval))
| CfgSetup (c : comp_config).

Record batterx_configuration : Type := { ip_address : string }.

Record batterx : Type := {
  dev_id : Z;
  dev_name : string;
  configuration : batterx_configuration
}.

(** Input of [Device.__init__]: [Union[Dict, BatterX]]. *)
Inductive dev_in : Type :=
| DevDict (fields : list (string * pyval))
| DevObj (b : batterx).

(** The imported component modules and component classes. *)
Inductive comp_module : Type := Mod_bat | Mod_counter | Mod_inverter | Mod_external_inverter.

Inductive comp_class : Type := BatterXBat | BatterXCounter | BatterXInverter.

(** A component object: its class and the arguments of its constructor. *)
Record component : Type := {
  c_class : comp_class;
  c_device_id : Z;
  c_config : comp_config
}.

Definition COMPONENT_TYPE_TO_CLASS : dict comp_class :=
  [("bat", BatterXBat); ("counter", BatterXCounter); ("inverter", BatterXInverter)].

Definition COMPONENT_TYPE_TO_MODULE : dict comp_module :=
  [("bat", Mod_bat); ("counter", Mod_counter); ("inverter", Mod_inverter);
   ("external_inverter", Mod_external_inverter)].

(** The [Device] object: [self.components] and [self.device_config]
    (an attribute that is absent until it has been assigned). *)
Record device : Type := {
  components : dict component;
  device_config : option batterx
}.

(** ** Collaborators outside this file

    The code calls into modules that are not part of device.py: the
    dataclass conversion, the configuration factories, the component
    classes, the HTTP session and the value store.  They form the
    interface below; every statement is proved for all its instances. *)

Class Collab : Type := {
  payload : Type;                      (* decoded JSON document *)
  reading : Type;                      (* a power reading (float) *)
  reading_add : reading -> reading -> reading;
  inv_state : Type;                    (* InverterState *)
  (** [dataclass_from_dict(BatterX, device_config)] *)
  dataclass_from_dict_device : dev_in -> result batterx;
  (** [BatterX()] *)
  batterx_default : batterx;
  (** [dataclass_from_dict(MODULE.component_descriptor.configuration_factory, cfg)] *)
  dataclass_from_dict_component : comp_module -> cfg_in -> result comp_config;
  (** [MODULE.component_descriptor.configuration_factory()] *)
  configuration_factory : comp_module -> comp_config;
  (** [__init__] of the component classes: [None] when it returns normally *)
  component_init : comp_class -> Z -> comp_config -> option pyexn;
  (** [component.update(resp_json)]: [None] when it returns normally *)
  component_update : component -> payload -> option pyexn;
  (** [component.get_power(resp_json)] *)
  get_power : component -> payload -> result reading;
  (** Modelled from the spec: [component.get_inverter_state(power)]
      (modules/devices/batterx/inverter.py is not part of this file); the
      spec's combine contract makes it a pure function of its input. *)
  get_inverter_state : component -> reading -> inv_state;
  (** [req.get_http_session().get(url, timeout=t).json()] *)
  http_get_json : string -> Z -> result payload
}.

Section BatterX.
Context {CB : Collab}.

(** Observable events, in the order the code produces them. *)
Inductive event : Type :=
| EvDebugComponents (comps : dict component)  (* "Start device reading " + str(self.components) *)
| EvDebug (msg : string)
| EvWarning (msg : string)
| EvLogException (msg : string)
| EvFetch (url : string) (timeout : Z)
| EvUpdate (c : component) (p : payload)
| EvPublish (n : option Z) (st : inv_state)
| EvSlotAcquire (c : component)
| EvSlotRelease (c : component) (outcome : option pyexn).

(** ** The monad: state = the device object, output = events *)

Definition M (A : Type) : Type := device -> result A * device * list event.

Definition ret {A} (a : A) : M A := fun d => (Ok a, d, []).

Definition bind {A B} (m : M A) (k : A -> M B) : M B := fun d =>
  match m d with
  | (Ok a, d1, w1) => match k a d1 with (r, d2, w2) => (r, d2, app w1 w2) end
  | (Err e, d1, w1) => (Err e, d1, w1)
  end.

Notation "x <- m ;; k" := (bind m (fun x => k))
  (at level 61, m at next level, right associativity).
Notation "m ;; k" := (bind m (fun _ => k)) (at level 61, right associativity).

Definition raise {A} (e : pyexn) : M A := fun d => (Err e, d, []).
Definition emit (ev : event) : M unit := fun d => (Ok tt, d, [ev]).
Definition get_dev : M device := fun d => (Ok d, d, []).
Definition put_dev (d' : device) : M unit := fun _ => (Ok tt, d', []).
Definition lift {A} (r : result A) : M A := fun d => (r, d, []).

(** [try: m except Exception as e: ...] *)
Definition try_ {A} (m : M A) : M (result A) := fun d =>
  match m d with (r, d1, w1) => (Ok r, d1, w1) end.

(** ** Helpers for the Python constructs the code uses *)

(** [self.device_config]: an [AttributeError] while it is unset. *)
Definition self_device_config : M batterx :=
  dev <- get_dev ;;
  match device_config dev with
  | Some b => ret b
  | None => raise (AttributeError "device_config")
  end.

(** [d[k]] on a dict of components. *)
Definition dict_index (k : string) (d : dict component) : M component :=
  match dict_get k d with
  | Some c => ret c
  | None => raise (KeyError (PyStr k))
  end.

(** Constructing a component object: [CLS(device_id, component_config)]. *)
Definition new_component (cls : comp_class) (device_id : Z) (cfg : comp_config) : M component :=
  match component_init cls device_id cfg with
  | None => ret {| c_class := cls; c_device_id := device_id; c_config := cfg |}
  | Some e => raise e
  end.

(** [resp_json = req.get_http_session().get(url, timeout=t).json()] *)
Definition fetch (url : string) (timeout : Z) : M payload :=
  emit (EvFetch url timeout) ;;
  lift (http_get_json url timeout).

(** [component.update(resp_json)] *)
Definition call_update (c : component) (p : payload) : M unit :=
  emit (EvUpdate c p) ;;
  match component_update c p with
  | None => ret tt
  | Some e => raise e
  end.

(** [for kv in self.components.items(): body(kv)] over the live dict of
    the device: the iterator walks positions and raises when the dict has
    changed size since the loop started.  [fuel] bounds the positions. *)
Fixpoint dict_iter (fuel : nat) (i n0 : nat) (body : string * component -> M unit) : M unit :=
  match fuel with
  | O => ret tt
  | S fuel' =>
      dev <- get_dev ;;
      if negb (Nat.eqb (length (components dev)) n0)
      then raise (RuntimeError "dictionary changed size during iteration")
      else match nth_error (components dev) i with
           | None => ret tt
           | Some kv => body kv ;; dict_iter fuel' (S i) n0 body
           end
  end.

Definition for_components (body : string * component -> M unit) : M unit :=
  dev <- get_dev ;;
  let n := length (components dev) in
  dict_iter (S n) 0 n body.

Fixpoint emit_all (evs : list event) : M unit :=
  match evs with
  | [] => ret tt
  | ev :: evs' => emit ev ;; emit_all evs'
  end.

(** Modelled from the spec: [MultiComponentUpdateContext]
    (modules/common/component_context.py is not part of this file).
    Section 4.4 and 7 of the spec: on enter an update slot is acquired for
    every component of the dict; on every exit path each acquired slot is
    released exactly once, reporting success or the captured failure; a
    failure of the body (fetch or dispatch) is contained, not re-raised. *)
Definition with_update_context {A} (comps : dict component) (body : M A) : M unit :=
  emit_all (map (fun kc => EvSlotAcquire (snd kc)) comps) ;;
  r <- try_ body ;;
  let outcome := match r with Ok _ => None | Err e => Some e end in
  emit_all (map (fun kc => EvSlotRelease (snd kc) outcome) comps).

(** ** Device (class Device(AbstractDevice)) *)

(** [Device.__init__]: [self.components = {}], then the config conversion;
    its handler reads [self.device_config.name], which is not set yet. *)
Definition device_init (cfg : dev_in) : M unit :=
  put_dev {| components := []; device_config := None |} ;;
  match dataclass_from_dict_device cfg with
  | Ok b =>
      dev <- get_dev ;;
      put_dev {| components := components dev; device_config := Some b |}
  | Err _ =>
      b <- self_device_config ;;
      emit (EvLogException ("Fehler im Modul " ++ dev_name b))
  end.

(** The dict key ["component" + str(component_config.id)]. *)
Definition component_key (cfg : comp_config) : string :=
  "component" ++ str_opt_int (cc_id cfg).

Definition illegal_type_message (component_type : string) (allowed : list string) : string :=
  "illegal component type " ++ component_type ++ ". Allowed values: " ++ String.concat "," allowed.

(** [Device.add_component] *)
Definition add_component (component_config : cfg_in) : M unit :=
  component_type <-
    match component_config with
    | CfgDict fields =>
        match dict_get "type" fields with
        | Some v => ret v
        | None => raise (KeyError (PyStr "type"))
        end
    | CfgSetup c => ret (PyStr (cc_type c))
    end ;;
  m <-
    match py_dict_get component_type COMPONENT_TYPE_TO_MODULE with
    | Some m => ret m
    | None => raise (KeyError component_type)
    end ;;
  cfg <- lift (dataclass_from_dict_component m component_config) ;;
  match py_dict_get component_type COMPONENT_TYPE_TO_CLASS with
  | Some cls =>
      (* the right-hand side is evaluated before the subscript target *)
      b <- self_device_config ;;
      comp <- new_component cls (dev_id b) cfg ;;
      dev <- get_dev ;;
      put_dev {| components := dict_set (component_key cfg) comp (components dev);
                 device_config := device_config dev |}
  | None =>
      match component_type with
      | PyStr t => raise (Exception (illegal_type_message t (map fst COMPONENT_TYPE_TO_CLASS)))
      | _ => raise (TypeError "can only concatenate str")
      end
  end.

Definition device_url (ip : string) : string :=
  "http://" ++ ip ++ "/api.php?get=currentstate".

Definition not_configured_message (name : string) : string :=
  name ++ ": Es konnten keine Werte gelesen werden, da noch keine Komponenten konfiguriert wurden.".

(** [self.components[component].update(resp_json)] *)
Definition update_component (resp_json : payload) (component : string) : M unit :=
  dev <- get_dev ;;
  c <- dict_index component (components dev) ;;
  call_update c resp_json.

(** [Device.update] *)
Definition device_update : M unit :=
  dev <- get_dev ;;
  emit (EvDebugComponents (components dev)) ;;
  match components dev with
  | _ :: _ =>
      with_update_context (components dev) (
        b <- self_device_config ;;
        resp_json <- fetch (device_url (ip_address (configuration b))) 5 ;;
        for_components (fun kv => update_component resp_json (fst kv)))
  | [] =>
      b <- self_device_config ;;
      emit (EvWarning (not_configured_message (dev_name b)))
  end.

(** ** Legacy entry point *)

(** [_add_component(dev, component_type, num)] (the device is the state). *)
Definition _add_component (component_type : string) (num : option Z) : M unit :=
  match dict_get component_type COMPONENT_TYPE_TO_MODULE with
  | Some m =>
      let cfg := configuration_factory m in
      (* component_config.id = num *)
      add_component (CfgSetup {| cc_type := cc_type cfg; cc_id := num; cc_params := cc_params cfg |})
  | None =>
      raise (Exception (illegal_type_message component_type (map fst COMPONENT_TYPE_TO_MODULE)))
  end.

(** [component.get_inverter_state(power + power_ext)]: the derived state
    computed from the primary and the external inverter reading. *)
Definition combine_step (component : component) (power power_ext : reading) : inv_state :=
  get_inverter_state component (reading_add power power_ext).

Definition opt_str_eqb (o : option string) (s : string) : bool :=
  match o with Some s' => String.eqb s' s | None => false end.

(** The body of the dispatch loop of [read_legacy]. *)
Definition legacy_dispatch (num : option Z) (ext_inverter : Z) (resp_json : payload)
    (component : component) : M unit :=
  match c_class component with
  | BatterXBat | BatterXCounter => call_update component resp_json
  | BatterXInverter =>
      if Z.eqb ext_inverter 0 then call_update component resp_json
      else
        _add_component "external_inverter" (Some 4%Z) ;;
        power <- lift (get_power component resp_json) ;;
        dev <- get_dev ;;
        c4 <- dict_index "component4" (components dev) ;;
        power_ext <- lift (get_power c4 resp_json) ;;
        (* state = component.get_inverter_state(power+power_ext);
           get_inverter_value_store(num).set(state) *)
        emit (EvPublish num (combine_step component power power_ext))
  end.

(** [read_legacy(component_type, ip_address, num, evu_counter, bat_module, ext_inverter)] *)
Definition read_legacy (component_type : string) (ip : string) (num : option Z)
    (evu_counter bat_module : option string) (ext_inverter : Z) : M unit :=
  (* device_config = BatterX(); device_config.configuration.ip_address = ip_address *)
  let device_config0 :=
    {| dev_id := dev_id batterx_default; dev_name := dev_name batterx_default;
       configuration := {| ip_address := ip |} |} in
  device_init (DevObj device_config0) ;;
  _add_component component_type num ;;
  (if opt_str_eqb evu_counter "bezug_batterx" then _add_component "counter" (Some 0%Z) else ret tt) ;;
  (if opt_str_eqb bat_module "speicher_batterx" then _add_component "bat" (Some 3%Z) else ret tt) ;;
  emit (EvDebug ("BatterX IP-Adresse: " ++ ip)) ;;
  emit (EvDebug ("BatterX externer WR: " ++ str_int ext_inverter)) ;;
  dev <- get_dev ;;
  with_update_context (components dev) (
    resp_json <- fetch (device_url ip) 5 ;;
    for_components (fun kv => legacy_dispatch num ext_inverter resp_json (snd kv))).

(** Running a loop body on the items of a list, stopping at the first
    exception (used to state what [dict_iter] does on a fixed dict). *)
Fixpoint seq_items (l : dict component) (body : string * component -> M unit) : M unit :=
  match l with
  | [] => ret tt
  | kv :: l' => body kv ;; seq_items l' body
  end.

(** ** Observations on event lists *)

Definition fetches_of (w : list event) : list (string * Z) :=
  flat_map (fun ev => match ev with EvFetch u t => [(u, t)] | _ => [] end) w.

Definition updates_of (w : list event) : list (component * payload) :=
  flat_map (fun ev => match ev with EvUpdate c p => [(c, p)] | _ => [] end) w.

Definition publishes_of (w : list event) : list (option Z * inv_state) :=
  flat_map (fun ev => match ev with EvPublish n st => [(n, st)] | _ => [] end) w.

Definition run_result {A} (x : result A * device * list event) : result A := fst (fst x).
Definition run_device {A} (x : result A * device * list event) : device := snd (fst x).
Definition run_events {A} (x : result A * device * list event) : list event := snd x.

Definition slot_acquires (comps : dict component) : list event :=
  map (fun kc => EvSlotAcquire (snd kc)) comps.

Definition slot_releases (comps : dict component) (outcome : option pyexn) : list event :=
  map (fun kc => EvSlotRelease (snd kc) outcome) comps.

(** A computation that never changes the device object. *)
Definition keeps_dev {A} (m : M A) : Prop :=
  forall d, run_device (m d) = d.

(** A computation that produces no event at all. *)
Definition silent {A} (m : M A) : Prop :=
  forall d, run_events (m d) = [].

(** A computation none of whose events is selected by [sel]. *)
Definition quiet (sel : event -> bool) {A} (m : M A) : Prop :=
  forall d, forallb (fun ev => negb (sel ev)) (run_events (m d)) = true.

(** Events that feed the inverter value store: a published state or an
    update call on an inverter component. *)
Definition inverter_output (ev : event) : bool :=
  match ev with
  | EvPublish _ _ => true
  | EvUpdate c _ => match c_class c with BatterXInverter => true | _ => false end
  | _ => false
  end.

Definition is_fetch_or_update (ev : event) : bool :=
  match ev with EvFetch _ _ | EvUpdate _ _ => true | _ => false end.

Definition is_publish (ev : event) : bool :=
  match ev with EvPublish _ _ => true | _ => false end.

(** Collaborators that behave as the configuration classes do on
    well-formed input: [dataclass_from_dict] returns an object of the
    target class unchanged, [configuration_factory()] gives the module's
    own type tag, and the constructors return normally. *)
Definition plain_collab : Prop :=
  (forall b, dataclass_from_dict_device (DevObj b) = Ok b) /\
  (forall m c, dataclass_from_dict_component m (CfgSetup c) = Ok c) /\
  (forall m, cc_type (configuration_factory m) =
             match m with
             | Mod_bat => "bat" | Mod_counter => "counter"
             | Mod_inverter => "inverter" | Mod_external_inverter => "external_inverter"
             end) /\
  (forall cls i c, component_init cls i c = None).

(** The component [_add_component(dev, t, num)] stores for module [m] and
    class [cls] with plain collaborators. *)
Definition legacy_component (cls : comp_class) (m : comp_module) (device_id : Z) (num : option Z) : component :=
  let cfg := configuration_factory m in
  {| c_class := cls; c_device_id := device_id;
     c_config := {| cc_type := cc_type cfg; cc_id := num; cc_params := cc_params cfg |} |}.

Definition is_fetch (ev : event) : bool :=
  match ev with EvFetch _ _ => true | _ => false end.

(** A computation that issues no HTTP request, whatever the device. *)
Definition nofetch {A} (m : M A) : Prop :=
  forall d, fetches_of (run_events (m d)) = [].

(** Either an exception before any HTTP request, or exactly one request
    to [url] with timeout 5 and a normal return. *)
Definition error_or_one_fetch {A} (url : string) (x : result A * device * list event) : Prop :=
  (fetches_of (run_events x) = [] /\ exists e, run_result x = Err e) \/
  (exists a, fetches_of (run_events x) = [(url, 5%Z)] /\ run_result x = Ok a).

End BatterX.

(** ** A concrete instance of the collaborators, for evaluation

    Payloads are numbers, readings and inverter states are integers; the
    component whose id is [failing] raises in [update]; the HTTP request
    returns [net].  Configurations given as dicts read "type" and "id". *)

Definition module_tag (m : comp_module) : string :=
  match m with
  | Mod_bat => "bat" | Mod_counter => "counter"
  | Mod_inverter => "inverter" | Mod_external_inverter => "external_inverter"
  end.

Definition conf_of_fields (fields : list (string * pyval)) : result comp_config :=
  match dict_get "type" fields, dict_get "id" fields with
  | Some (PyStr t), Some (PyInt i) => Ok {| cc_type := t; cc_id := Some i; cc_params := [] |}
  | _, _ => Err (Raised "TypeError" "missing field")
  end.

Definition test_collab (failing : option Z) (net : result nat) : Collab := {|
  payload := nat;
  reading := Z;
  reading_add := Z.add;
  inv_state := Z;
  dataclass_from_dict_device := fun i =>
    match i with DevObj b => Ok b | DevDict _ => Err (Raised "TypeError" "not a BatterX") end;
  batterx_default := {| dev_id := 0; dev_name := "BatterX"; configuration := {| ip_address := "" |} |};
  dataclass_from_dict_component := fun _ i =>
    match i with CfgSetup c => Ok c | CfgDict f => conf_of_fields f end;
  configuration_factory := fun m => {| cc_type := module_tag m; cc_id := Some 0%Z; cc_params := [] |};
  component_init := fun _ _ _ => None;
  component_update := fun c _ =>
    match failing, cc_id (c_config c) with
    | Some i, Some j => if Z.eqb i j then Some (Raised "KeyError" "update failed") else None
    | _, _ => None
    end;
  get_power := fun _ p => Ok (Z.of_nat p);
  get_inverter_state := fun _ x => x;
  http_get_json := fun _ _ => net
|}.

Definition test_batterx : batterx :=
  {| dev_id := 7; dev_name := "BatterX"; configuration := {| ip_address := "192.168.0.10" |} |}.

Definition empty_device : device := {| components := []; device_config := None |}.

Definition setup_of (t : string) (i : Z) : cfg_in :=
  CfgSetup {| cc_type := t; cc_id := Some i; cc_params := [] |}.

Definition bat1 : component :=
  {| c_class := BatterXBat; c_device_id := 7;
     c_config := {| cc_type := "bat"; cc_id := Some 1%Z; cc_params := [] |} |}.

Definition counter2 : component :=
  {| c_class := BatterXCounter; c_device_id := 7;
     c_config := {| cc_type := "counter"; cc_id := Some 2%Z; cc_params := [] |} |}.

(** A configured device with a battery (id 1) and a counter (id 2). *)
Definition two_component_device : device :=
  {| components := [("component1", bat1); ("component2", counter2)];
     device_config := Some test_batterx |}.

Definition configured_empty_device : device :=
  {| components := []; device_config := Some test_batterx |}.

Definition update_error : pyexn := Raised "KeyError" "update failed".
Definition timeout_error : pyexn := Raised "ReadTimeout" "read timed out".

(** * Properties *)

Section Proofs.
Context {CB : Collab}.

(** ** Monad and dict lemmas *)

Lemma bind_run {A B} (m : M A) (k : A -> M B) (d : device) :
  bind m k d =
  match m d with
  | (Ok a, d1, w1) => match k a d1 with (r, d2, w2) => (r, d2, w1 ++ w2)%list end
  | (Err e, d1, w1) => (Err e, d1, w1)
  end.
Proof. reflexivity. Qed.

Lemma emit_all_run (evs : list event) (d : device) :
  emit_all evs d = (Ok tt, d, evs).
Proof.
  induction evs as [|ev evs IH]; [reflexivity|].
  cbn [emit_all]. rewrite bind_run. unfold emit. rewrite IH. reflexivity.
Qed.

Lemma dict_get_in {V} (k : string) (v : V) (l : dict V) :
  NoDup (map fst l) -> In (k, v) l -> dict_get k l = Some v.
Proof.
  induction l as [|[k' v'] l IH]; simpl; [tauto|].
  intros Hnd Hin. inversion Hnd as [|? ? Hnotin Hnd']; subst.
  destruct Hin as [Heq|Hin].
  - inversion Heq; subst. rewrite String.eqb_refl. reflexivity.
  - destruct (String.eqb_spec k k') as [->|]; [|auto].
    exfalso. apply Hnotin. apply (in_map fst _ _ Hin).
Qed.

Lemma dict_set_keys {V} (k : string) (v : V) (l : dict V) :
  map fst (dict_set k v l) =
  if existsb (String.eqb k) (map fst l) then map fst l else (map fst l ++ [k])%list.
Proof.
  induction l as [|[k' v'] l IH]; simpl; [reflexivity|].
  destruct (String.eqb_spec k k') as [->|Hne]; simpl; [reflexivity|].
  rewrite IH. destruct (existsb _ _); reflexivity.
Qed.

Lemma dict_set_nodup {V} (k : string) (v : V) (l : dict V) :
  NoDup (map fst l) -> NoDup (map fst (dict_set k v l)).
Proof.
  rewrite dict_set_keys. destruct (existsb (String.eqb k) (map fst l)) eqn:E; [auto|].
  intros Hnd. apply NoDup_app; [exact Hnd | constructor; [simpl; tauto | constructor] |].
  intros x Hx [<-|[]].
  assert (Ht : existsb (String.eqb k) (map fst l) = true).
  { apply existsb_exists. exists k. split; [exact Hx | apply String.eqb_refl]. }
  congruence.
Qed.

Lemma dict_get_set_same {V} (k : string) (v : V) (l : dict V) :
  dict_get k (dict_set k v l) = Some v.
Proof.
  induction l as [|[k' v'] l IH]; simpl; [rewrite String.eqb_refl; reflexivity|].
  destruct (String.eqb_spec k k') as [->|Hne]; simpl.
  - rewrite String.eqb_refl. reflexivity.
  - apply String.eqb_neq in Hne. rewrite Hne. exact IH.
Qed.

Lemma dict_get_set_other {V} (k k2 : string) (v : V) (l : dict V) :
  k2 <> k -> dict_get k2 (dict_set k v l) = dict_get k2 l.
Proof.
  intros Hne. induction l as [|[k' v'] l IH]; simpl.
  - apply String.eqb_neq in Hne. rewrite Hne. reflexivity.
  - destruct (String.eqb_spec k k') as [->|Hne']; simpl.
    + apply String.eqb_neq in Hne. rewrite Hne. reflexivity.
    + rewrite IH. reflexivity.
Qed.

(** ** add_component *)

(** What one call of [add_component] does: on success, exactly the entry
    at the key of the converted configuration is set; on an exception,
    the device object is as before. *)
Lemma add_component_cases (cfg : cfg_in) (d : device) :
  match add_component cfg d with
  | (Ok _, d', _) =>
      exists m ccfg comp,
        dataclass_from_dict_component m cfg = Ok ccfg /\
        c_config comp = ccfg /\
        d' = {| components := dict_set (component_key ccfg) comp (components d);
                device_config := device_config d |}
  | (Err _, d', _) => d' = d
  end.
Proof.
  unfold add_component.
  rewrite bind_run.
  destruct cfg as [fields|c].
  - destruct (dict_get "type" fields) as [v|]; [|reflexivity].
    cbn [ret]. rewrite bind_run.
    destruct (py_dict_get v COMPONENT_TYPE_TO_MODULE) as [m|]; [|reflexivity].
    cbn [ret]. rewrite bind_run. unfold lift.
    destruct (dataclass_from_dict_component m (CfgDict fields)) as [ccfg|] eqn:Hconv; [|reflexivity].
    destruct (py_dict_get v COMPONENT_TYPE_TO_CLASS) as [cls|].
    + unfold self_device_config. rewrite !bind_run. unfold get_dev.
      destruct (device_config d) as [b|] eqn:Hdc; [|reflexivity].
      cbn [ret]. rewrite bind_run. unfold new_component.
      destruct (component_init cls (dev_id b) ccfg); [reflexivity|].
      cbn [ret put_dev]. exists m, ccfg.
      exists {| c_class := cls; c_device_id := dev_id b; c_config := ccfg |}.
      split; [exact Hconv|]. split; [reflexivity|]. rewrite Hdc. reflexivity.
    + destruct v; reflexivity.
  - cbn [ret]. rewrite bind_run.
    destruct (py_dict_get (PyStr (cc_type c)) COMPONENT_TYPE_TO_MODULE) as [m|]; [|reflexivity].
    cbn [ret]. rewrite bind_run. unfold lift.
    destruct (dataclass_from_dict_component m (CfgSetup c)) as [ccfg|] eqn:Hconv; [|reflexivity].
    destruct (py_dict_get (PyStr (cc_type c)) COMPONENT_TYPE_TO_CLASS) as [cls|].
    + unfold self_device_config. rewrite !bind_run. unfold get_dev.
      destruct (device_config d) as [b|] eqn:Hdc; [|reflexivity].
      cbn [ret]. rewrite bind_run. unfold new_component.
      destruct (component_init cls (dev_id b) ccfg); [reflexivity|].
      cbn [ret put_dev]. exists m, ccfg.
      exists {| c_class := cls; c_device_id := dev_id b; c_config := ccfg |}.
      split; [exact Hconv|]. split; [reflexivity|]. rewrite Hdc. reflexivity.
    + reflexivity.
Qed.

(** ** The dispatch loop of [Device.update] *)

Lemma skipn_nth_error {V} (l : list V) (i : nat) (x : V) :
  nth_error l i = Some x -> skipn i l = x :: skipn (S i) l.
Proof.
  revert i. induction l as [|y l IH]; intros [|i] H; simpl in *; try discriminate.
  - inversion H; reflexivity.
  - apply IH. exact H.
Qed.

(** On a loop body that leaves the device object alone, the live dict
    iteration runs the body on the items in order, stopping at the first
    exception. *)
Lemma dict_iter_seq (body : string * component -> M unit) (fuel i : nat) (d : device) :
  (forall kv, In kv (components d) -> run_device (body kv d) = d) ->
  i <= length (components d) -> length (components d) - i < fuel ->
  dict_iter fuel i (length (components d)) body d = seq_items (skipn i (components d)) body d.
Proof.
  intros Hpres. revert i. induction fuel as [|fuel IH]; intros i Hi Hf; [lia|].
  cbn [dict_iter]. rewrite bind_run. cbn [get_dev]. rewrite Nat.eqb_refl. cbn [negb].
  destruct (nth_error (components d) i) as [kv|] eqn:Hnth.
  - rewrite (skipn_nth_error _ _ _ Hnth). cbn [seq_items]. rewrite !bind_run.
    assert (Hin : In kv (components d)) by (eapply nth_error_In; exact Hnth).
    assert (Hlt : i < length (components d)) by (apply nth_error_Some; congruence).
    specialize (Hpres kv Hin). unfold run_device in Hpres.
    destruct (body kv d) as [[[u|e] d1] w1]; simpl in Hpres; subst d1; [|reflexivity].
    rewrite IH by lia.
    destruct (seq_items (skipn (S i) (components d)) body d) as [[r2 d2] w2]. reflexivity.
  - apply nth_error_None in Hnth.
    rewrite skipn_all2 by exact Hnth. reflexivity.
Qed.

Lemma for_components_seq (body : string * component -> M unit) (d : device) :
  (forall kv, In kv (components d) -> run_device (body kv d) = d) ->
  for_components body d = seq_items (components d) body d.
Proof.
  intros Hpres. unfold for_components. rewrite bind_run. cbn [get_dev].
  rewrite (dict_iter_seq body (S (length (components d))) 0 d Hpres) by lia.
  cbn [skipn]. destruct (seq_items (components d) body d) as [[r d'] w]. reflexivity.
Qed.

Lemma update_component_run (p : payload) (kv : string * component) (d : device) :
  NoDup (map fst (components d)) -> In kv (components d) ->
  update_component p (fst kv) d =
  (match component_update (snd kv) p with None => Ok tt | Some e => Err e end,
   d, [EvUpdate (snd kv) p]).
Proof.
  intros Hnd Hin. destruct kv as [k c].
  unfold update_component. rewrite bind_run. cbn [get_dev fst snd].
  unfold dict_index. rewrite (dict_get_in k c _ Hnd Hin).
  rewrite bind_run. cbn [ret]. unfold call_update. rewrite bind_run. cbn [emit].
  destruct (component_update c p); reflexivity.
Qed.

Lemma seq_items_all_ok (body : string * component -> M unit) (p : payload)
    (l : dict component) (d : device) :
  (forall kv, In kv l -> body kv d = (Ok tt, d, [EvUpdate (snd kv) p])) ->
  seq_items l body d = (Ok tt, d, map (fun kv => EvUpdate (snd kv) p) l).
Proof.
  induction l as [|kv l IH]; intros H; [reflexivity|].
  cbn [seq_items]. rewrite bind_run. rewrite (H kv (or_introl eq_refl)).
  rewrite IH by (intros kv' Hin; apply H; right; exact Hin). reflexivity.
Qed.

Lemma seq_items_stop (body : string * component -> M unit) (p : payload)
    (pre post : dict component) (x : string * component) (e : pyexn) (d : device) :
  (forall kv, In kv pre -> body kv d = (Ok tt, d, [EvUpdate (snd kv) p])) ->
  body x d = (Err e, d, [EvUpdate (snd x) p]) ->
  seq_items (pre ++ x :: post)%list body d =
  (Err e, d, map (fun kv => EvUpdate (snd kv) p) (pre ++ [x])%list).
Proof.
  induction pre as [|kv pre IH]; intros H Hx.
  - cbn [seq_items app]. rewrite bind_run. rewrite Hx. reflexivity.
  - cbn [seq_items app]. rewrite bind_run. rewrite (H kv (or_introl eq_refl)).
    rewrite IH; [reflexivity | intros kv' Hin; apply H; right; exact Hin | exact Hx].
Qed.

(** One run of [Device.update] on a non-empty dict, step by step. *)
Lemma device_update_nonempty (d : device) (b : batterx) :
  components d <> [] -> device_config d = Some b ->
  device_update d =
  let url := device_url (ip_address (configuration b)) in
  match http_get_json url 5 with
  | Ok p =>
      match for_components (fun kv => update_component p (fst kv)) d with
      | (r, d', w) =>
          (Ok tt, d',
           [EvDebugComponents (components d)] ++ slot_acquires (components d) ++
           [EvFetch url 5] ++ w ++
           slot_releases (components d) (match r with Ok _ => None | Err e => Some e end))%list
      end
  | Err e =>
      (Ok tt, d,
       [EvDebugComponents (components d)] ++ slot_acquires (components d) ++
       [EvFetch url 5] ++ slot_releases (components d) (Some e))%list
  end.
Proof.
  intros Hne Hdc. unfold device_update. rewrite bind_run. cbn [get_dev].
  rewrite bind_run. cbn [emit].
  destruct (components d) as [|kc0 rest] eqn:Hcs; [congruence|].
  rewrite <- Hcs. unfold with_update_context.
  rewrite bind_run, emit_all_run. rewrite bind_run. unfold try_.
  rewrite bind_run. unfold self_device_config. rewrite bind_run. cbn [get_dev].
  rewrite Hdc. cbn [ret]. rewrite bind_run. unfold fetch. rewrite bind_run. cbn [emit lift].
  destruct (http_get_json (device_url (ip_address (configuration b))) 5) as [p|e].
  - destruct (for_components (fun kv => update_component p (fst kv)) d) as [[r d'] w].
    rewrite emit_all_run. unfold slot_acquires, slot_releases.
    destruct r; cbn; rewrite ?app_nil_r; reflexivity.
  - rewrite emit_all_run. unfold slot_acquires, slot_releases. cbn. rewrite ?app_nil_r. reflexivity.
Qed.

Lemma seq_items_update_prefix (body : string * component -> M unit) (p : payload)
    (l : dict component) (d : device) :
  (forall kv, In kv l -> exists r, body kv d = (r, d, [EvUpdate (snd kv) p])) ->
  exists l1 l2, l = (l1 ++ l2)%list /\
    run_device (seq_items l body d) = d /\
    run_events (seq_items l body d) = map (fun kv => EvUpdate (snd kv) p) l1.
Proof.
  induction l as [|kv l IH]; intros H.
  - exists [], []. split; [reflexivity | split; reflexivity].
  - destruct (H kv (or_introl eq_refl)) as [r Hb].
    cbn [seq_items]. rewrite bind_run, Hb. destruct r as [u|e].
    + destruct IH as (l1 & l2 & Hl & Hd & Hw); [intros kv' Hin; apply H; right; exact Hin|].
      exists (kv :: l1), l2. subst l.
      destruct (seq_items (l1 ++ l2)%list body d) as [[r' d'] w'].
      unfold run_device, run_events in *; simpl in *. split; [reflexivity|].
      split; [exact Hd | rewrite Hw; reflexivity].
    + exists [kv], l. split; [reflexivity | split; reflexivity].
Qed.

(** ** Events *)

Lemma fetches_of_app (w1 w2 : list event) :
  fetches_of (w1 ++ w2)%list = (fetches_of w1 ++ fetches_of w2)%list.
Proof. unfold fetches_of. apply flat_map_app. Qed.

Lemma updates_of_app (w1 w2 : list event) :
  updates_of (w1 ++ w2)%list = (updates_of w1 ++ updates_of w2)%list.
Proof. unfold updates_of. apply flat_map_app. Qed.

Lemma fetches_of_slots (comps : dict component) (o : option pyexn) :
  fetches_of (slot_acquires comps) = [] /\ fetches_of (slot_releases comps o) = [].
Proof. induction comps as [|kc comps [IH1 IH2]]; split; simpl; auto. Qed.

Lemma updates_of_slots (comps : dict component) (o : option pyexn) :
  updates_of (slot_acquires comps) = [] /\ updates_of (slot_releases comps o) = [].
Proof. induction comps as [|kc comps [IH1 IH2]]; split; simpl; auto. Qed.

Lemma fetches_of_updates (p : payload) (l : dict component) :
  fetches_of (map (fun kv => EvUpdate (snd kv) p) l) = [].
Proof. induction l; simpl; auto. Qed.

Lemma updates_of_updates (p : payload) (l : dict component) :
  updates_of (map (fun kv => EvUpdate (snd kv) p) l) = map (fun kv => (snd kv, p)) l.
Proof. induction l as [|kv l IH]; simpl; [reflexivity | rewrite IH; reflexivity]. Qed.

Lemma update_component_preserves (p : payload) (d : device) :
  NoDup (map fst (components d)) ->
  forall kv, In kv (components d) -> run_device (update_component p (fst kv) d) = d.
Proof.
  intros Hnd kv Hin. rewrite (update_component_run p kv d Hnd Hin). reflexivity.
Qed.

(** ** HTTP requests of the legacy entry point *)

Lemma nofetch_bind {A B} (m : M A) (k : A -> M B) :
  nofetch m -> (forall a, nofetch (k a)) -> nofetch (bind m k).
Proof.
  intros Hm Hk d. unfold run_events. rewrite bind_run.
  specialize (Hm d). unfold run_events in Hm.
  destruct (m d) as [[[a|e] d1] w1]; simpl in Hm; [|exact Hm].
  specialize (Hk a d1). unfold run_events in Hk.
  destruct (k a d1) as [[r d2] w2]. simpl in *. rewrite fetches_of_app, Hm, Hk. reflexivity.
Qed.

Lemma nofetch_ret {A} (a : A) : nofetch (ret a).
Proof. intros d. reflexivity. Qed.

Lemma nofetch_raise {A} (e : pyexn) : nofetch (@raise _ A e).
Proof. intros d. reflexivity. Qed.

Lemma nofetch_lift {A} (r : result A) : nofetch (lift r).
Proof. intros d. reflexivity. Qed.

Lemma nofetch_get_dev : nofetch get_dev.
Proof. intros d. reflexivity. Qed.

Lemma nofetch_put_dev (d' : device) : nofetch (put_dev d').
Proof. intros d. reflexivity. Qed.

Lemma nofetch_emit (ev : event) : is_fetch ev = false -> nofetch (emit ev).
Proof. intros H d. destruct ev; try discriminate; reflexivity. Qed.

Create HintDb nofetch.
#[local] Hint Resolve nofetch_ret nofetch_raise nofetch_lift nofetch_get_dev nofetch_put_dev : nofetch.
#[local] Hint Extern 1 (nofetch (emit _)) => (apply nofetch_emit; reflexivity) : nofetch.

Ltac solve_nofetch :=
  repeat first
    [ apply nofetch_bind; [ | intro ]
    | solve [ eauto with nofetch ]
    | match goal with
      | |- nofetch (match ?x with _ => _ end) => destruct x
      | |- nofetch (if ?x then _ else _) => destruct x
      end ].

Lemma nofetch_self_device_config : nofetch self_device_config.
Proof. unfold self_device_config. solve_nofetch. Qed.
#[local] Hint Resolve nofetch_self_device_config : nofetch.

Lemma nofetch_dict_index (k : string) (l : dict component) : nofetch (dict_index k l).
Proof. unfold dict_index. solve_nofetch. Qed.
#[local] Hint Resolve nofetch_dict_index : nofetch.

Lemma nofetch_new_component cls i cfg : nofetch (new_component cls i cfg).
Proof. unfold new_component. solve_nofetch. Qed.
#[local] Hint Resolve nofetch_new_component : nofetch.

Lemma nofetch_call_update (c : component) (p : payload) : nofetch (call_update c p).
Proof. unfold call_update. solve_nofetch. Qed.
#[local] Hint Resolve nofetch_call_update : nofetch.

Lemma nofetch_add_component (cfg : cfg_in) : nofetch (add_component cfg).
Proof. unfold add_component. solve_nofetch. Qed.
#[local] Hint Resolve nofetch_add_component : nofetch.

Lemma nofetch__add_component (t : string) (num : option Z) : nofetch (_add_component t num).
Proof. unfold _add_component. solve_nofetch. Qed.
#[local] Hint Resolve nofetch__add_component : nofetch.

Lemma nofetch_device_init (i : dev_in) : nofetch (device_init i).
Proof. unfold device_init. solve_nofetch. Qed.
#[local] Hint Resolve nofetch_device_init : nofetch.

Lemma nofetch_legacy_dispatch num ext p c : nofetch (legacy_dispatch num ext p c).
Proof. unfold legacy_dispatch. solve_nofetch. Qed.
#[local] Hint Resolve nofetch_legacy_dispatch : nofetch.

Lemma nofetch_dict_iter (fuel i n0 : nat) (body : string * component -> M unit) :
  (forall kv, nofetch (body kv)) -> nofetch (dict_iter fuel i n0 body).
Proof.
  intros Hb. revert i. induction fuel as [|fuel IH]; intros i; cbn [dict_iter]; solve_nofetch.
Qed.

Lemma nofetch_for_components (body : string * component -> M unit) :
  (forall kv, nofetch (body kv)) -> nofetch (for_components body).
Proof. intros Hb. unfold for_components. solve_nofetch. apply nofetch_dict_iter. exact Hb. Qed.

Lemma error_or_one_fetch_bind {A B} (url : string) (m : M A) (k : A -> M B) (d : device) :
  nofetch m -> (forall a d', error_or_one_fetch url (k a d')) ->
  error_or_one_fetch url (bind m k d).
Proof.
  intros Hm Hk. rewrite bind_run. specialize (Hm d). unfold run_events in Hm.
  destruct (m d) as [[[a|e] d1] w1]; simpl in Hm.
  - specialize (Hk a d1). destruct (k a d1) as [[r d2] w2].
    unfold error_or_one_fetch, run_events, run_result in *; simpl in *.
    rewrite fetches_of_app, Hm. exact Hk.
  - left. split; [exact Hm | exists e; reflexivity].
Qed.

(** The update block of [read_legacy]: one request, then a dispatch loop
    that issues none; the context returns normally. *)
Lemma legacy_cycle_one_fetch (ip : string) (num : option Z) (ext : Z) (comps : dict component)
    (d : device) :
  error_or_one_fetch (device_url ip)
    (with_update_context comps
       (bind (fetch (device_url ip) 5) (fun resp_json =>
          for_components (fun kv => legacy_dispatch num ext resp_json (snd kv)))) d).
Proof.
  right. exists tt.
  unfold with_update_context. rewrite bind_run, emit_all_run, bind_run. unfold try_.
  unfold fetch. rewrite !bind_run. cbn [emit lift].
  destruct (http_get_json (device_url ip) 5) as [p|e].
  - pose proof (nofetch_for_components (fun kv => legacy_dispatch num ext p (snd kv))
                  (fun kv => nofetch_legacy_dispatch num ext p (snd kv)) d) as Hl.
    destruct (for_components (fun kv => legacy_dispatch num ext p (snd kv)) d) as [[r d1] w1].
    unfold run_events in Hl. simpl in Hl.
    rewrite emit_all_run. unfold run_events, run_result. simpl.
    split; [|reflexivity].
    destruct (fetches_of_slots comps (match r with Ok _ => None | Err e => Some e end)) as [H1 H2].
    unfold slot_acquires, slot_releases in *.
    rewrite fetches_of_app, H1.
    change (fetches_of (EvFetch (device_url ip) 5 :: ?w)) with ((device_url ip, 5%Z) :: fetches_of w).
    rewrite fetches_of_app, Hl, H2. reflexivity.
  - rewrite emit_all_run. unfold run_events, run_result. simpl. split; [|reflexivity].
    destruct (fetches_of_slots comps (Some e)) as [H1 H2].
    unfold slot_acquires, slot_releases in *.
    rewrite fetches_of_app, H1.
    change (fetches_of (EvFetch (device_url ip) 5 :: ?w)) with ((device_url ip, 5%Z) :: fetches_of w).
    rewrite H2. reflexivity.
Qed.

(** ** Device.update: claims *)

(** C5: on an empty component dict, [Device.update] only logs the debug
    line and the "not yet configured" warning: no HTTP request, no
    component update, no exception. *)
Theorem device_update_empty (d : device) (b : batterx) :
  components d = [] -> device_config d = Some b ->
  device_update d =
  (Ok tt, d, [EvDebugComponents []; EvWarning (not_configured_message (dev_name b))]).
Proof.
  intros Hcs Hdc. unfold device_update. rewrite bind_run. cbn [get_dev].
  rewrite bind_run. cbn [emit]. rewrite Hcs.
  unfold self_device_config. rewrite !bind_run. cbn [get_dev]. rewrite Hdc.
  reflexivity.
Qed.

(** C4: when the HTTP request fails, no component is updated: the cycle
    logs, acquires a slot per component, issues the one request, and
    releases every slot reporting the fetch error; the device object is
    unchanged and [Device.update] returns normally. *)
Theorem device_update_fetch_error (d : device) (b : batterx) (e : pyexn) :
  components d <> [] -> device_config d = Some b ->
  http_get_json (device_url (ip_address (configuration b))) 5 = Err e ->
  match device_update d with
  | (r, d', w) =>
      r = Ok tt /\ d' = d /\ updates_of w = [] /\
      w = ([EvDebugComponents (components d)] ++ slot_acquires (components d) ++
           [EvFetch (device_url (ip_address (configuration b))) 5] ++
           slot_releases (components d) (Some e))%list
  end.
Proof.
  intros Hne Hdc Hget. rewrite (device_update_nonempty d b Hne Hdc). cbv zeta.
  rewrite Hget. split; [reflexivity|]. split; [reflexivity|]. split; [|reflexivity].
  rewrite !updates_of_app. destruct (updates_of_slots (components d) (Some e)) as [-> ->].
  reflexivity.
Qed.

(** C1 (as the code does it): the loop of [Device.update] has no handler
    of its own.  When a component's [update] raises, the components before
    it in the dict's order have been updated with the payload, the failing
    one has been called, and no component after it receives the payload:
    the exception leaves the loop. *)
Theorem device_update_stops_at_failure (d : device) (b : batterx) (p : payload)
    (pre post : dict component) (k : string) (c : component) (e : pyexn) :
  components d = (pre ++ (k, c) :: post)%list ->
  NoDup (map fst (components d)) ->
  device_config d = Some b ->
  http_get_json (device_url (ip_address (configuration b))) 5 = Ok p ->
  (forall kc, In kc pre -> component_update (snd kc) p = None) ->
  component_update c p = Some e ->
  match device_update d with
  | (_, _, w) => updates_of w = map (fun kc => (snd kc, p)) (pre ++ [(k, c)])%list
  end.
Proof.
  intros Hcs Hnd Hdc Hget Hpre Hc.
  assert (Hne : components d <> []) by (rewrite Hcs; destruct pre; discriminate).
  rewrite (device_update_nonempty d b Hne Hdc). cbv zeta. rewrite Hget.
  rewrite (for_components_seq _ d (update_component_preserves p d Hnd)).
  assert (Hin : forall kc, In kc pre -> In kc (components d))
    by (intros kc H; rewrite Hcs; apply in_or_app; left; exact H).
  assert (Hseq : seq_items (components d) (fun kv => update_component p (fst kv)) d =
                 (Err e, d, map (fun kv => EvUpdate (snd kv) p) (pre ++ [(k, c)])%list)).
  { rewrite Hcs at 1.
    apply (seq_items_stop (fun kv => update_component p (fst kv)) p pre post (k, c) e d).
    - intros kc Hkc. rewrite (update_component_run p kc d Hnd (Hin kc Hkc)).
      rewrite (Hpre kc Hkc). reflexivity.
    - assert (Hk : In (k, c) (components d))
        by (rewrite Hcs; apply in_or_app; right; left; reflexivity).
      rewrite (update_component_run p (k, c) d Hnd Hk). simpl. rewrite Hc. reflexivity. }
  rewrite Hseq. rewrite !updates_of_app.
  destruct (updates_of_slots (components d) (Some e)) as [-> ->].
  rewrite updates_of_updates. simpl. rewrite app_nil_r. reflexivity.
Qed.

(** C2 (as the code does it): on a non-empty dict, one call of
    [Device.update] issues exactly one HTTP GET, to
    [http://<ip_address>/api.php?get=currentstate] with timeout 5; when it
    succeeds and no component raises, every component is updated exactly
    once, in the dict's order, with the payload of that request. *)
Theorem device_update_single_fetch (d : device) (b : batterx) :
  components d <> [] ->
  NoDup (map fst (components d)) ->
  device_config d = Some b ->
  match device_update d with
  | (_, _, w) =>
      fetches_of w = [(device_url (ip_address (configuration b)), 5%Z)] /\
      forall p,
        http_get_json (device_url (ip_address (configuration b))) 5 = Ok p ->
        (forall kc, In kc (components d) -> component_update (snd kc) p = None) ->
        updates_of w = map (fun kc => (snd kc, p)) (components d)
  end.
Proof.
  intros Hne Hnd Hdc.
  rewrite (device_update_nonempty d b Hne Hdc). cbv zeta.
  destruct (http_get_json (device_url (ip_address (configuration b))) 5) as [p|e] eqn:Hget.
  - rewrite (for_components_seq _ d (update_component_preserves p d Hnd)).
    destruct (seq_items_update_prefix (fun kv => update_component p (fst kv)) p (components d) d)
      as (l1 & l2 & _ & _ & Hw).
    { intros kv Hin. rewrite (update_component_run p kv d Hnd Hin). eexists. reflexivity. }
    destruct (seq_items (components d) (fun kv => update_component p (fst kv)) d)
      as [[r d'] w] eqn:Hseq.
    unfold run_events in Hw. simpl in Hw. subst w.
    split.
    + rewrite !fetches_of_app, fetches_of_updates.
      destruct (fetches_of_slots (components d) (match r with Ok _ => None | Err e => Some e end))
        as [-> ->].
      reflexivity.
    + intros p' Hp' Hall. inversion Hp'; subst p'.
      rewrite (seq_items_all_ok _ p (components d) d) in Hseq.
      * injection Hseq as <- _ Hl1. rewrite <- Hl1.
        rewrite !updates_of_app, updates_of_updates.
        destruct (updates_of_slots (components d) None) as [-> ->].
        simpl. rewrite app_nil_r. reflexivity.
      * intros kv Hin. rewrite (update_component_run p kv d Hnd Hin), (Hall kv Hin). reflexivity.
  - split.
    + rewrite !fetches_of_app.
      destruct (fetches_of_slots (components d) (Some e)) as [-> ->]. reflexivity.
    + intros p Hp. discriminate.
Qed.

(** C9: [add_component] is atomic.  It either returns normally having set
    exactly one entry, under the key ["component" + str(id)] of the
    converted configuration (replacing an entry at that key), or it raises
    and the device object (components and config) is as before. *)
Theorem add_component_atomic (cfg : cfg_in) (d : device) :
  match add_component cfg d with
  | (Ok _, d', _) =>
      exists m ccfg comp,
        dataclass_from_dict_component m cfg = Ok ccfg /\
        c_config comp = ccfg /\
        components d' = dict_set ("component" ++ str_opt_int (cc_id ccfg)) comp (components d) /\
        device_config d' = device_config d
  | (Err _, d', _) => d' = d
  end.
Proof.
  pose proof (add_component_cases cfg d) as H.
  destruct (add_component cfg d) as [[[u|e] d'] w]; [|exact H].
  destruct H as (m & ccfg & comp & Hconv & Hc & ->).
  exists m, ccfg, comp. repeat split; assumption.
Qed.

(** C6 (as the code does it): the key of an entry is
    ["component" + str(id)], whatever the component type.  A successful
    [add_component] keeps the keys unique; it replaces the entry in place
    when the key is already present (even for another type) and appends a
    new key otherwise; every other entry is untouched. *)
Theorem add_component_keys_by_id (cfg : cfg_in) (d : device) :
  NoDup (map fst (components d)) ->
  match add_component cfg d with
  | (Ok _, d', _) =>
      exists comp,
        let key := "component" ++ str_opt_int (cc_id (c_config comp)) in
        NoDup (map fst (components d')) /\
        dict_get key (components d') = Some comp /\
        (forall k, k <> key -> dict_get k (components d') = dict_get k (components d)) /\
        map fst (components d') =
          (if existsb (String.eqb key) (map fst (components d))
           then map fst (components d) else map fst (components d) ++ [key])%list
  | (Err _, d', _) => d' = d
  end.
Proof.
  intros Hnd.
  pose proof (add_component_cases cfg d) as H.
  destruct (add_component cfg d) as [[[u|e] d'] w]; [|exact H].
  destruct H as (m & ccfg & comp & _ & Hc & ->).
  exists comp. simpl. unfold component_key. rewrite Hc.
  split; [apply dict_set_nodup; exact Hnd|].
  split; [apply dict_get_set_same|].
  split; [intros k Hk; apply dict_get_set_other; exact Hk|].
  apply dict_set_keys.
Qed.

(** C3 (as the code behaves): a configuration whose type is in neither
    component table, e.g. the dict [{"type": "foo", "id": 1}], makes
    [add_component] raise [KeyError('foo')] from the lookup in
    [COMPONENT_TYPE_TO_MODULE]; the message names only the tag, not the
    registered types.  The device object is unchanged. *)
Theorem add_component_unknown_type_keyerror (d : device) :
  add_component (CfgDict [("type", PyStr "foo"); ("id", PyInt 1)]) d =
  (Err (KeyError (PyStr "foo")), d, []).
Proof. reflexivity. Qed.

(** C10: [Device.__init__] returns normally only with [device_config]
    set to the converted [BatterX] value and an empty component dict; when
    the conversion raises, its handler raises [AttributeError] on
    [self.device_config.name]. *)
Theorem device_init_sets_config (i : dev_in) (d : device) :
  match device_init i d with
  | (Ok _, d', _) =>
      exists b, dataclass_from_dict_device i = Ok b /\
        d' = {| components := []; device_config := Some b |}
  | (Err e, _, _) =>
      e = AttributeError "device_config" /\
      exists e', dataclass_from_dict_device i = Err e'
  end.
Proof.
  unfold device_init. rewrite bind_run. cbn [put_dev].
  destruct (dataclass_from_dict_device i) as [b|e'] eqn:Hconv.
  - cbn. exists b. split; reflexivity.
  - cbn. split; [reflexivity|]. exists e'. reflexivity.
Qed.

(** ** The derived inverter state *)

(** C8: the combining step of [read_legacy] is a function of the two
    readings that sees them only through their sum
    [power + power_ext]; with a commutative addition (float addition is)
    it is symmetric in the two readings. *)
Theorem combine_step_symmetric (component : component) (a b : reading) :
  (forall x y : reading, reading_add x y = reading_add y x) ->
  combine_step component a b = combine_step component b a /\
  combine_step component a b = get_inverter_state component (reading_add a b).
Proof.
  intros Hcomm. unfold combine_step. split; [rewrite Hcomm; reflexivity | reflexivity].
Qed.

(** ** Computations that leave the device object alone *)

Lemma keeps_bind {A B} (m : M A) (k : A -> M B) :
  keeps_dev m -> (forall a, keeps_dev (k a)) -> keeps_dev (bind m k).
Proof.
  intros Hm Hk d. unfold run_device. rewrite bind_run.
  specialize (Hm d). unfold run_device in Hm.
  destruct (m d) as [[[a|e] d1] w1]; simpl in Hm; subst d1; [|reflexivity].
  specialize (Hk a d). unfold run_device in Hk.
  destruct (k a d) as [[r d2] w2]. exact Hk.
Qed.

Lemma keeps_ret {A} (a : A) : keeps_dev (ret a).
Proof. intros d. reflexivity. Qed.
Lemma keeps_raise {A} (e : pyexn) : keeps_dev (@raise _ A e).
Proof. intros d. reflexivity. Qed.
Lemma keeps_lift {A} (r : result A) : keeps_dev (lift r).
Proof. intros d. reflexivity. Qed.
Lemma keeps_get_dev : keeps_dev get_dev.
Proof. intros d. reflexivity. Qed.
Lemma keeps_emit (ev : event) : keeps_dev (emit ev).
Proof. intros d. reflexivity. Qed.
Lemma keeps_emit_all (evs : list event) : keeps_dev (emit_all evs).
Proof. intros d. unfold run_device. rewrite emit_all_run. reflexivity. Qed.
Lemma keeps_try {A} (m : M A) : keeps_dev m -> keeps_dev (try_ m).
Proof.
  intros Hm d. specialize (Hm d). unfold run_device, try_ in *.
  destruct (m d) as [[r d1] w1]. exact Hm.
Qed.

Create HintDb keeps.
#[local] Hint Resolve keeps_ret keeps_raise keeps_lift keeps_get_dev keeps_emit keeps_emit_all
  : keeps.

Ltac solve_keeps :=
  repeat first
    [ apply keeps_bind; [ | intro ]
    | apply keeps_try
    | solve [ eauto with keeps ]
    | match goal with
      | |- keeps_dev (match ?x with _ => _ end) => destruct x
      | |- keeps_dev (if ?x then _ else _) => destruct x
      end ].

Lemma keeps_with_update_context {A} (comps : dict component) (body : M A) :
  keeps_dev body -> keeps_dev (with_update_context comps body).
Proof. intros Hb. unfold with_update_context. solve_keeps. Qed.

Lemma keeps_self_device_config : keeps_dev self_device_config.
Proof. unfold self_device_config. solve_keeps. Qed.
#[local] Hint Resolve keeps_self_device_config : keeps.

Lemma keeps_dict_index (k : string) (l : dict component) : keeps_dev (dict_index k l).
Proof. unfold dict_index. solve_keeps. Qed.
#[local] Hint Resolve keeps_dict_index : keeps.

Lemma keeps_fetch (url : string) (t : Z) : keeps_dev (fetch url t).
Proof. unfold fetch. solve_keeps. Qed.
#[local] Hint Resolve keeps_fetch : keeps.

Lemma keeps_call_update (c : component) (p : payload) : keeps_dev (call_update c p).
Proof. unfold call_update. solve_keeps. Qed.
#[local] Hint Resolve keeps_call_update : keeps.

Lemma keeps_update_component (p : payload) (k : string) : keeps_dev (update_component p k).
Proof. unfold update_component. solve_keeps. Qed.
#[local] Hint Resolve keeps_update_component : keeps.

Lemma keeps_dict_iter (fuel i n0 : nat) (body : string * component -> M unit) :
  (forall kv, keeps_dev (body kv)) -> keeps_dev (dict_iter fuel i n0 body).
Proof.
  intros Hb. revert i. induction fuel as [|fuel IH]; intros i; cbn [dict_iter]; solve_keeps.
Qed.

Lemma keeps_for_components (body : string * component -> M unit) :
  (forall kv, keeps_dev (body kv)) -> keeps_dev (for_components body).
Proof. intros Hb. unfold for_components. solve_keeps. apply keeps_dict_iter. exact Hb. Qed.

(** ** Computations without events *)

Lemma silent_bind {A B} (m : M A) (k : A -> M B) :
  silent m -> (forall a, silent (k a)) -> silent (bind m k).
Proof.
  intros Hm Hk d. unfold run_events. rewrite bind_run.
  specialize (Hm d). unfold run_events in Hm.
  destruct (m d) as [[[a|e] d1] w1]; simpl in Hm; subst w1; [|reflexivity].
  specialize (Hk a d1). unfold run_events in Hk.
  destruct (k a d1) as [[r d2] w2]. simpl in *. exact Hk.
Qed.

Lemma silent_ret {A} (a : A) : silent (ret a).
Proof. intros d. reflexivity. Qed.
Lemma silent_raise {A} (e : pyexn) : silent (@raise _ A e).
Proof. intros d. reflexivity. Qed.
Lemma silent_lift {A} (r : result A) : silent (lift r).
Proof. intros d. reflexivity. Qed.
Lemma silent_get_dev : silent get_dev.
Proof. intros d. reflexivity. Qed.
Lemma silent_put_dev (d' : device) : silent (put_dev d').
Proof. intros d. reflexivity. Qed.

Create HintDb silent.
#[local] Hint Resolve silent_ret silent_raise silent_lift silent_get_dev silent_put_dev : silent.

Ltac solve_silent :=
  repeat first
    [ apply silent_bind; [ | intro ]
    | solve [ eauto with silent ]
    | match goal with
      | |- silent (match ?x with _ => _ end) => destruct x
      | |- silent (if ?x then _ else _) => destruct x
      end ].

Lemma silent_self_device_config : silent self_device_config.
Proof. unfold self_device_config. solve_silent. Qed.
#[local] Hint Resolve silent_self_device_config : silent.

Lemma silent_dict_index (k : string) (l : dict component) : silent (dict_index k l).
Proof. unfold dict_index. solve_silent. Qed.
#[local] Hint Resolve silent_dict_index : silent.

Lemma silent_new_component cls i cfg : silent (new_component cls i cfg).
Proof. unfold new_component. solve_silent. Qed.
#[local] Hint Resolve silent_new_component : silent.

Lemma silent_add_component (cfg : cfg_in) : silent (add_component cfg).
Proof. unfold add_component. solve_silent. Qed.
#[local] Hint Resolve silent_add_component : silent.

Lemma silent__add_component (t : string) (num : option Z) : silent (_add_component t num).
Proof. unfold _add_component. solve_silent. Qed.
#[local] Hint Resolve silent__add_component : silent.

(** The handler of [Device.__init__] raises before it can log anything. *)
Lemma silent_device_init (i : dev_in) : silent (device_init i).
Proof.
  intros d. unfold device_init, run_events. rewrite bind_run. cbn [put_dev].
  destruct (dataclass_from_dict_device i); reflexivity.
Qed.

(** ** Computations without selected events *)

Lemma quiet_bind (sel : event -> bool) {A B} (m : M A) (k : A -> M B) :
  quiet sel m -> (forall a, quiet sel (k a)) -> quiet sel (bind m k).
Proof.
  intros Hm Hk d. unfold run_events. rewrite bind_run.
  specialize (Hm d). unfold run_events in Hm.
  destruct (m d) as [[[a|e] d1] w1]; simpl in Hm; [|exact Hm].
  specialize (Hk a d1). unfold run_events in Hk.
  destruct (k a d1) as [[r d2] w2]. simpl in *. rewrite forallb_app, Hm, Hk. reflexivity.
Qed.

Lemma quiet_of_silent (sel : event -> bool) {A} (m : M A) : silent m -> quiet sel m.
Proof. intros Hm d. rewrite (Hm d). reflexivity. Qed.

Lemma quiet_emit (sel : event -> bool) (ev : event) : sel ev = false -> quiet sel (emit ev).
Proof. intros H d. unfold run_events, emit. simpl. rewrite H. reflexivity. Qed.

Lemma quiet_emit_all (sel : event -> bool) (evs : list event) :
  forallb (fun ev => negb (sel ev)) evs = true -> quiet sel (emit_all evs).
Proof. intros H d. unfold run_events. rewrite emit_all_run. exact H. Qed.

Lemma quiet_try (sel : event -> bool) {A} (m : M A) : quiet sel m -> quiet sel (try_ m).
Proof.
  intros Hm d. specialize (Hm d). unfold run_events, try_ in *.
  destruct (m d) as [[r d1] w1]. exact Hm.
Qed.

Lemma quiet_dict_iter (sel : event -> bool) (fuel i n0 : nat) (body : string * component -> M unit) :
  (forall kv, quiet sel (body kv)) -> quiet sel (dict_iter fuel i n0 body).
Proof.
  intros Hb. revert i. induction fuel as [|fuel IH]; intros i; cbn [dict_iter].
  - apply quiet_of_silent, silent_ret.
  - apply quiet_bind; [apply quiet_of_silent, silent_get_dev | intros dev].
    destruct (negb _); [apply quiet_of_silent, silent_raise|].
    destruct (nth_error _ _) as [kv|]; [|apply quiet_of_silent, silent_ret].
    apply quiet_bind; [apply Hb | intros _; apply IH].
Qed.

Lemma quiet_slots (sel : event -> bool) (comps : dict component) (o : option pyexn) :
  (forall c, sel (EvSlotAcquire c) = false) -> (forall c, sel (EvSlotRelease c o) = false) ->
  forallb (fun ev => negb (sel ev)) (slot_acquires comps) = true /\
  forallb (fun ev => negb (sel ev)) (slot_releases comps o) = true.
Proof.
  intros H1 H2. induction comps as [|kc comps [IH1 IH2]]; [split; reflexivity|].
  simpl. rewrite H1, H2. split; assumption.
Qed.

Lemma quiet_with_update_context (sel : event -> bool) {A} (comps : dict component) (body : M A) :
  (forall c, sel (EvSlotAcquire c) = false) -> (forall c o, sel (EvSlotRelease c o) = false) ->
  quiet sel body -> quiet sel (with_update_context comps body).
Proof.
  intros H1 H2 Hb. unfold with_update_context.
  apply quiet_bind.
  - apply quiet_emit_all. apply (quiet_slots sel comps None H1 (fun c => H2 c None)).
  - intros _. apply quiet_bind; [apply quiet_try, Hb | intros r].
    apply quiet_emit_all.
    apply (quiet_slots sel comps _ H1 (fun c => H2 c _)).
Qed.

Lemma quiet_nil_fetches_updates (w : list event) :
  forallb (fun ev => negb (is_fetch_or_update ev)) w = true ->
  fetches_of w = [] /\ updates_of w = [].
Proof.
  induction w as [|ev w IH]; [split; reflexivity|].
  simpl. intros H. apply andb_prop in H as [Hev Hw].
  destruct (IH Hw) as [H1 H2].
  destruct ev; simpl in Hev |- *; try discriminate; split; assumption.
Qed.

Lemma quiet_for_components (sel : event -> bool) (body : string * component -> M unit) :
  (forall kv, quiet sel (body kv)) -> quiet sel (for_components body).
Proof.
  intros Hb. unfold for_components. apply quiet_bind; [apply quiet_of_silent, silent_get_dev|].
  intros dev. apply quiet_dict_iter. exact Hb.
Qed.

Ltac solve_quiet :=
  repeat first
    [ apply quiet_with_update_context; [intros; reflexivity | intros; reflexivity | ]
    | apply quiet_for_components; intro
    | apply quiet_try
    | apply quiet_emit; reflexivity
    | apply quiet_of_silent; solve [solve_silent]
    | apply quiet_bind; [ | intro ]
    | match goal with
      | |- quiet _ (match ?x with _ => _ end) => destruct x
      | |- quiet _ (if ?x then _ else _) => destruct x
      end ].

Lemma publishes_of_quiet (w : list event) :
  forallb (fun ev => negb (is_publish ev)) w = true -> publishes_of w = [].
Proof.
  induction w as [|ev w IH]; [reflexivity|].
  simpl. intros H. apply andb_prop in H as [Hev Hw].
  destruct ev; simpl in Hev |- *; try discriminate; apply IH; exact Hw.
Qed.

Lemma inverter_output_quiet (w : list event) :
  forallb (fun ev => negb (inverter_output ev)) w = true ->
  publishes_of w = [] /\ (forall c p, In (EvUpdate c p) w -> c_class c <> BatterXInverter).
Proof.
  induction w as [|ev w IH]; [split; [reflexivity | intros c p []]|].
  simpl. intros H. apply andb_prop in H as [Hev Hw]. destruct (IH Hw) as [H1 H2].
  split.
  - destruct ev; simpl in Hev |- *; try discriminate; exact H1.
  - intros c p [->|Hin]; [|exact (H2 c p Hin)].
    simpl in Hev. destruct (c_class c); [discriminate| discriminate|]. simpl in Hev. discriminate.
Qed.

Lemma device_init_ok (i : dev_in) (b : batterx) (d : device) :
  dataclass_from_dict_device i = Ok b ->
  device_init i d = (Ok tt, {| components := []; device_config := Some b |}, []).
Proof. intros H. unfold device_init. rewrite bind_run. cbn [put_dev]. rewrite H. reflexivity. Qed.

Lemma add_component_setup_unclassed (c : comp_config) (m : comp_module) (d : device) :
  dict_get (cc_type c) COMPONENT_TYPE_TO_MODULE = Some m ->
  dict_get (cc_type c) COMPONENT_TYPE_TO_CLASS = None ->
  exists e, add_component (CfgSetup c) d = (Err e, d, []) /\
    (e = Exception (illegal_type_message (cc_type c) (map fst COMPONENT_TYPE_TO_CLASS)) \/
     dataclass_from_dict_component m (CfgSetup c) = Err e).
Proof.
  intros Hm Hcls. unfold add_component. rewrite bind_run. cbn [ret]. rewrite bind_run.
  unfold py_dict_get at 1. rewrite Hm. cbn [ret]. rewrite bind_run. unfold lift.
  destruct (dataclass_from_dict_component m (CfgSetup c)) as [ccfg|e] eqn:Hc.
  - unfold py_dict_get. rewrite Hcls. eexists. split; [reflexivity | left; reflexivity].
  - exists e. split; [reflexivity | right; reflexivity].
Qed.

Lemma external_inverter_add_fails (num : option Z) (d : device) :
  cc_type (configuration_factory Mod_external_inverter) = "external_inverter" ->
  exists e, _add_component "external_inverter" num d = (Err e, d, []) /\
    (e = Exception (illegal_type_message "external_inverter" ["bat"; "counter"; "inverter"]) \/
     dataclass_from_dict_component Mod_external_inverter
       (CfgSetup {| cc_type := "external_inverter"; cc_id := num;
                    cc_params := cc_params (configuration_factory Mod_external_inverter) |}) = Err e).
Proof.
  intros Hf. unfold _add_component.
  change (dict_get "external_inverter" COMPONENT_TYPE_TO_MODULE) with (Some Mod_external_inverter).
  cbv beta iota zeta. rewrite Hf.
  apply (add_component_setup_unclassed
           {| cc_type := "external_inverter"; cc_id := num;
              cc_params := cc_params (configuration_factory Mod_external_inverter) |}
           Mod_external_inverter d); reflexivity.
Qed.

(** ** Further properties of the code *)

(** [read_legacy] with a component type that is not a key of
    [COMPONENT_TYPE_TO_MODULE]: once the device is built, [_add_component]
    raises the exception listing the four module keys, before any log line
    or request; the device keeps an empty component dict. *)
Theorem read_legacy_unknown_type (t ip : string) (num : option Z)
    (evu_counter bat_module : option string) (ext_inverter : Z) (d : device) :
  (forall b, dataclass_from_dict_device (DevObj b) = Ok b) ->
  dict_get t COMPONENT_TYPE_TO_MODULE = None ->
  read_legacy t ip num evu_counter bat_module ext_inverter d =
  (Err (Exception (illegal_type_message t ["bat"; "counter"; "inverter"; "external_inverter"])),
   {| components := [];
      device_config := Some {| dev_id := dev_id batterx_default; dev_name := dev_name batterx_default;
                               configuration := {| ip_address := ip |} |} |},
   []).
Proof.
  intros Hdev Ht. unfold read_legacy. rewrite bind_run. rewrite (device_init_ok _ _ _ (Hdev _)).
  rewrite bind_run. unfold _add_component. rewrite Ht. reflexivity.
Qed.

(** [_add_component(dev, "external_inverter", num)] never adds a
    component: "external_inverter" is a key of [COMPONENT_TYPE_TO_MODULE]
    but not of [Device.COMPONENT_TYPE_TO_CLASS], so [add_component] raises
    (the "illegal component type" exception listing bat, counter and
    inverter, or the error of the configuration conversion), without any
    event and with the device unchanged. *)
Theorem external_inverter_never_added (num : option Z) (d : device) :
  cc_type (configuration_factory Mod_external_inverter) = "external_inverter" ->
  exists e, _add_component "external_inverter" num d = (Err e, d, []) /\
    (e = Exception "illegal component type external_inverter. Allowed values: bat,counter,inverter" \/
     dataclass_from_dict_component Mod_external_inverter
       (CfgSetup {| cc_type := "external_inverter"; cc_id := num;
                    cc_params := cc_params (configuration_factory Mod_external_inverter) |}) = Err e).
Proof. intros Hf. exact (external_inverter_add_fails num d Hf). Qed.

(** [Device.update] never changes the device object: its component dict
    and its configuration are the same after the call, whatever the
    request and the components' [update] calls do (also when one of them
    raises, or the configuration attribute is unset). *)
Theorem device_update_keeps_device (d : device) :
  run_device (device_update d) = d.
Proof.
  revert d. change (keeps_dev device_update). unfold device_update.
  apply keeps_bind; [apply keeps_get_dev | intros dev].
  apply keeps_bind; [apply keeps_emit | intros _].
  destruct (components dev) as [|kc rest].
  - solve_keeps.
  - apply keeps_with_update_context.
    apply keeps_bind; [apply keeps_self_device_config | intros b].
    apply keeps_bind; [apply keeps_fetch | intros p].
    apply keeps_for_components. intros kv. apply keeps_update_component.
Qed.

(** A successful [add_component] reads the type tag [t] of its input,
    converts the configuration with the module [COMPONENT_TYPE_TO_MODULE[t]]
    and sets exactly one entry: under the key of the converted
    configuration, a new object of class [COMPONENT_TYPE_TO_CLASS[t]] built
    with the id of the device's configuration and the converted
    configuration.  So every component it adds is a bat, counter or
    inverter object. *)
Theorem add_component_stores_class (cfg : cfg_in) (d : device) :
  match add_component cfg d with
  | (Ok _, d', _) =>
      exists t m ccfg cls b,
        match cfg with
        | CfgDict fields => dict_get "type" fields = Some (PyStr t)
        | CfgSetup c => cc_type c = t
        end /\
        dict_get t COMPONENT_TYPE_TO_MODULE = Some m /\
        dataclass_from_dict_component m cfg = Ok ccfg /\
        dict_get t COMPONENT_TYPE_TO_CLASS = Some cls /\
        device_config d = Some b /\
        components d' =
          dict_set (component_key ccfg)
            {| c_class := cls; c_device_id := dev_id b; c_config := ccfg |} (components d) /\
        device_config d' = device_config d
  | (Err _, _, _) => True
  end.
Proof.
  unfold add_component. rewrite bind_run.
  destruct cfg as [fields|c].
  - destruct (dict_get "type" fields) as [v|] eqn:Hv; [|exact I].
    cbn [ret]. rewrite bind_run.
    destruct (py_dict_get v COMPONENT_TYPE_TO_MODULE) as [m|] eqn:Hm; [|exact I].
    cbn [ret]. rewrite bind_run. unfold lift.
    destruct (dataclass_from_dict_component m (CfgDict fields)) as [ccfg|] eqn:Hc; [|exact I].
    destruct (py_dict_get v COMPONENT_TYPE_TO_CLASS) as [cls|] eqn:Hcls; [|destruct v; exact I].
    unfold self_device_config. rewrite !bind_run. cbn [get_dev].
    destruct (device_config d) as [b|] eqn:Hdc; [|exact I].
    cbn [ret]. rewrite bind_run. unfold new_component.
    destruct (component_init cls (dev_id b) ccfg); [exact I|].
    cbn [ret]. rewrite bind_run. cbn [get_dev put_dev].
    destruct v as [t| |]; try discriminate.
    exists t, m, ccfg, cls, b. cbn [py_dict_get] in Hm, Hcls.
    repeat split; try assumption; try (cbn [device_config]; rewrite Hdc; reflexivity).
  - cbn [ret]. rewrite bind_run.
    destruct (py_dict_get (PyStr (cc_type c)) COMPONENT_TYPE_TO_MODULE) as [m|] eqn:Hm; [|exact I].
    cbn [ret]. rewrite bind_run. unfold lift.
    destruct (dataclass_from_dict_component m (CfgSetup c)) as [ccfg|] eqn:Hc; [|exact I].
    destruct (py_dict_get (PyStr (cc_type c)) COMPONENT_TYPE_TO_CLASS) as [cls|] eqn:Hcls;
      [|exact I].
    unfold self_device_config. rewrite !bind_run. cbn [get_dev].
    destruct (device_config d) as [b|] eqn:Hdc; [|exact I].
    cbn [ret]. rewrite bind_run. unfold new_component.
    destruct (component_init cls (dev_id b) ccfg); [exact I|].
    cbn [ret]. rewrite bind_run. cbn [get_dev put_dev].
    exists (cc_type c), m, ccfg, cls, b. cbn [py_dict_get] in Hm, Hcls.
    repeat split; try assumption; try (cbn [device_config]; rewrite Hdc; reflexivity).
Qed.

Lemma legacy_dispatch_quiet_inverter (num : option Z) (ext : Z) (p : payload) (c : component) :
  cc_type (configuration_factory Mod_external_inverter) = "external_inverter" -> ext <> 0%Z ->
  quiet inverter_output (legacy_dispatch num ext p c).
Proof.
  intros Hf Hext d. unfold legacy_dispatch, run_events.
  destruct (c_class c) eqn:E.
  1,2: unfold call_update; rewrite bind_run; cbn [emit];
       destruct (component_update c p); simpl; rewrite E; reflexivity.
  apply Z.eqb_neq in Hext. rewrite Hext. rewrite bind_run.
  destruct (external_inverter_add_fails (Some 4%Z) d Hf) as [e [H _]]. rewrite H. reflexivity.
Qed.

Lemma keeps_legacy_dispatch (num : option Z) (ext : Z) (p : payload) (c : component) :
  cc_type (configuration_factory Mod_external_inverter) = "external_inverter" ->
  keeps_dev (legacy_dispatch num ext p c).
Proof.
  intros Hf. unfold legacy_dispatch.
  destruct (c_class c); [apply keeps_call_update | apply keeps_call_update |].
  destruct (Z.eqb ext 0); [apply keeps_call_update|].
  intros d. unfold run_device. rewrite bind_run.
  destruct (external_inverter_add_fails (Some 4%Z) d Hf) as [e [H _]]. rewrite H. reflexivity.
Qed.

Lemma legacy_dispatch_zero (num : option Z) (p : payload) (c : component) :
  legacy_dispatch num 0 p c = call_update c p.
Proof. unfold legacy_dispatch. destruct (c_class c); reflexivity. Qed.

Lemma call_update_ok (c : component) (p : payload) (d : device) :
  component_update c p = None -> call_update c p d = (Ok tt, d, [EvUpdate c p]).
Proof. intros H. unfold call_update. rewrite bind_run. cbn [emit]. rewrite H. reflexivity. Qed.

(** The update block of [read_legacy] with [ext_inverter == 0] when the
    request and every update succeed. *)
Lemma legacy_cycle_ext0 (ip : string) (num : option Z) (p : payload) (d : device) :
  http_get_json (device_url ip) 5 = Ok p -> (forall c, component_update c p = None) ->
  with_update_context (components d)
    (bind (fetch (device_url ip) 5) (fun resp_json =>
       for_components (fun kv => legacy_dispatch num 0 resp_json (snd kv)))) d =
  (Ok tt, d, (slot_acquires (components d) ++ [EvFetch (device_url ip) 5] ++
              map (fun kv => EvUpdate (snd kv) p) (components d) ++
              slot_releases (components d) None)%list).
Proof.
  intros Hh Hu. unfold with_update_context. rewrite bind_run, emit_all_run, bind_run. unfold try_.
  unfold fetch. rewrite !bind_run. cbn [emit lift]. rewrite Hh.
  rewrite for_components_seq
    by (intros kv _; rewrite legacy_dispatch_zero, (call_update_ok _ _ _ (Hu _)); reflexivity).
  rewrite (seq_items_all_ok _ p)
    by (intros kv _; rewrite legacy_dispatch_zero; apply call_update_ok, Hu).
  rewrite emit_all_run. unfold slot_acquires, slot_releases. cbn [app]. reflexivity.
Qed.

Lemma updates_after_quiet {A} (m : M A) (k : A -> M unit) (p : payload) (d : device) :
  quiet is_fetch_or_update m ->
  (forall a d1, match k a d1 with
                | (r, d', w) => fetches_of w <> [] ->
                    r = Ok tt /\ updates_of w = map (fun kc => (snd kc, p)) (components d')
                end) ->
  match bind m k d with
  | (r, d', w) => fetches_of w <> [] ->
      r = Ok tt /\ updates_of w = map (fun kc => (snd kc, p)) (components d')
  end.
Proof.
  intros Hm Hk. rewrite bind_run. specialize (Hm d). unfold run_events in Hm.
  destruct (m d) as [[[a|e] d1] w1]; simpl in Hm;
    apply quiet_nil_fetches_updates in Hm as [Hf Hu].
  - specialize (Hk a d1). destruct (k a d1) as [[r d'] w2].
    intros Hne. rewrite fetches_of_app, Hf in Hne. destruct (Hk Hne) as [Hr Hw].
    split; [exact Hr|]. rewrite updates_of_app, Hu. exact Hw.
  - intros Hne. contradiction.
Qed.

Lemma add_component_setup_ok (c : comp_config) (m : comp_module) (cls : comp_class)
    (b : batterx) (d : device) :
  plain_collab ->
  dict_get (cc_type c) COMPONENT_TYPE_TO_MODULE = Some m ->
  dict_get (cc_type c) COMPONENT_TYPE_TO_CLASS = Some cls ->
  device_config d = Some b ->
  add_component (CfgSetup c) d =
  (Ok tt, {| components := dict_set (component_key c)
                             {| c_class := cls; c_device_id := dev_id b; c_config := c |}
                             (components d);
             device_config := Some b |}, []).
Proof.
  intros (H1 & H2 & H3 & H4) Hm Hcls Hdc.
  unfold add_component. rewrite bind_run. cbn [ret]. rewrite bind_run.
  unfold py_dict_get at 1. rewrite Hm. cbn [ret]. rewrite bind_run. unfold lift.
  rewrite H2. cbv beta iota. unfold py_dict_get. rewrite Hcls.
  unfold self_device_config. rewrite !bind_run. cbn [get_dev]. rewrite Hdc. cbn [ret].
  rewrite bind_run. unfold new_component. rewrite H4. cbn [ret]. rewrite bind_run. cbn [get_dev put_dev]. rewrite Hdc.
  reflexivity.
Qed.

Lemma module_type_tag (t : string) (m : comp_module) :
  plain_collab -> dict_get t COMPONENT_TYPE_TO_MODULE = Some m ->
  cc_type (configuration_factory m) = t.
Proof.
  intros (H1 & H2 & H3 & H4). rewrite H3. unfold COMPONENT_TYPE_TO_MODULE. cbn [dict_get].
  repeat match goal with
         | |- (if String.eqb t ?s then _ else _) = _ -> _ =>
             destruct (String.eqb_spec t s) as [->|_]; [intros [= <-]; reflexivity|]
         end.
  intros [=].
Qed.

Lemma _add_component_plain (t : string) (num : option Z) (m : comp_module) (cls : comp_class)
    (b : batterx) (d : device) :
  plain_collab ->
  dict_get t COMPONENT_TYPE_TO_MODULE = Some m ->
  dict_get t COMPONENT_TYPE_TO_CLASS = Some cls ->
  device_config d = Some b ->
  _add_component t num d =
  (Ok tt, {| components := dict_set ("component" ++ str_opt_int num)
                             (legacy_component cls m (dev_id b) num) (components d);
             device_config := Some b |}, []).
Proof.
  intros Hp Hm Hcls Hdc. pose proof (module_type_tag t m Hp Hm) as Ht.
  unfold _add_component. rewrite Hm. cbv zeta.
  rewrite (add_component_setup_ok _ m cls b d Hp); cbn [cc_type]; rewrite ?Ht; auto.
  unfold legacy_component. cbv zeta. rewrite Ht. reflexivity.
Qed.

(** With [ext_inverter != 0], no event of a run of [read_legacy] feeds
    the inverter value store. *)
Lemma read_legacy_quiet_inverter (t ip : string) (num : option Z)
    (evu_counter bat_module : option string) (ext_inverter : Z) :
  cc_type (configuration_factory Mod_external_inverter) = "external_inverter" ->
  ext_inverter <> 0%Z ->
  quiet inverter_output (read_legacy t ip num evu_counter bat_module ext_inverter).
Proof.
  intros Hf Hext. unfold read_legacy, fetch. solve_quiet.
  all: apply legacy_dispatch_quiet_inverter; assumption.
Qed.


(** With [ext_inverter != 0], [read_legacy] never produces inverter
    output: the external inverter cannot be added (its type is not a key of
    [Device.COMPONENT_TYPE_TO_CLASS]), so for an inverter component the
    loop body raises before [get_power], no state is ever set in the
    inverter value store, and [update] is never called on an inverter. *)
Theorem read_legacy_ext_inverter_no_output (t ip : string) (num : option Z)
    (evu_counter bat_module : option string) (ext_inverter : Z) (d : device) :
  cc_type (configuration_factory Mod_external_inverter) = "external_inverter" ->
  ext_inverter <> 0%Z ->
  let w := run_events (read_legacy t ip num evu_counter bat_module ext_inverter d) in
  publishes_of w = [] /\ (forall c p, In (EvUpdate c p) w -> c_class c <> BatterXInverter).
Proof.
  intros Hf Hext w. apply inverter_output_quiet. subst w.
  exact (read_legacy_quiet_inverter t ip num evu_counter bat_module ext_inverter Hf Hext d).
Qed.

(** With [ext_inverter == 0], once [read_legacy] has issued its request
    (the set-up did not raise), and the request and every [update] call
    succeed, it returns normally and has called [update] once on every
    component of the device's final dict, in the dict's order, with the
    fetched payload. *)
Theorem read_legacy_updates_all (t ip : string) (num : option Z)
    (evu_counter bat_module : option string) (d : device) (p : payload) :
  http_get_json (device_url ip) 5 = Ok p ->
  (forall c, component_update c p = None) ->
  match read_legacy t ip num evu_counter bat_module 0 d with
  | (r, d', w) => fetches_of w <> [] ->
      r = Ok tt /\ updates_of w = map (fun kc => (snd kc, p)) (components d')
  end.
Proof.
  intros Hh Hu. unfold read_legacy.
  repeat match goal with
         | |- match bind ?m _ _ with _ => _ end =>
             lazymatch m with
             | get_dev => fail
             | _ => apply updates_after_quiet; [solve_quiet | intros ? ?]
             end
         end.
  rewrite bind_run. cbn [get_dev]. rewrite (legacy_cycle_ext0 ip num p _ Hh Hu).
  intros _. split; [reflexivity|].
  match goal with
  | |- context [slot_acquires (components ?D)] =>
      destruct (updates_of_slots (components D) None) as [Ha Hr]
  end.
  rewrite !updates_of_app, Ha, Hr, updates_of_updates. cbn. rewrite app_nil_r. reflexivity.
Qed.

(** With collaborators that behave as the configuration classes do, the
    component dict [read_legacy] builds: the component of [component_type]
    under "component" + str(num), then the counter under "component0" and
    the battery under "component3" when requested.  The dict keys only
    depend on the ids: with [num = 0] and the counter requested, the counter
    replaces the component of [component_type] at the same position, and
    with [num = 3] and the battery requested, the battery does. *)
Theorem read_legacy_components (t ip : string) (num : option Z)
    (evu_counter bat_module : option string) (ext_inverter : Z) (d : device)
    (cls : comp_class) (m : comp_module) :
  plain_collab ->
  dict_get t COMPONENT_TYPE_TO_CLASS = Some cls ->
  dict_get t COMPONENT_TYPE_TO_MODULE = Some m ->
  let did := dev_id batterx_default in
  let l1 := [("component" ++ str_opt_int num, legacy_component cls m did num)] in
  let l2 := if opt_str_eqb evu_counter "bezug_batterx"
            then dict_set "component0" (legacy_component BatterXCounter Mod_counter did (Some 0%Z)) l1
            else l1 in
  let l3 := if opt_str_eqb bat_module "speicher_batterx"
            then dict_set "component3" (legacy_component BatterXBat Mod_bat did (Some 3%Z)) l2
            else l2 in
  components (run_device (read_legacy t ip num evu_counter bat_module ext_inverter d)) = l3.
Proof.
  intros Hp Hcls Hm did l1 l2 l3. subst did l1 l2 l3.
  pose proof Hp as (H1 & H2 & H3 & H4).
  unfold read_legacy. cbv zeta.
  rewrite bind_run, (device_init_ok _ _ _ (H1 _)). cbv beta iota.
  rewrite bind_run.
  erewrite (_add_component_plain t num m cls) by (first [exact Hp | exact Hm | exact Hcls | reflexivity]).
  cbv beta iota.
  rewrite bind_run. destruct (opt_str_eqb evu_counter "bezug_batterx").
  1: erewrite (_add_component_plain "counter" (Some 0%Z) Mod_counter BatterXCounter)
       by (first [exact Hp | reflexivity]).
  all: cbn [ret].
  all: cbv beta iota; rewrite bind_run; destruct (opt_str_eqb bat_module "speicher_batterx").
  1,3: erewrite (_add_component_plain "bat" (Some 3%Z) Mod_bat BatterXBat)
         by (first [exact Hp | reflexivity]).
  all: cbn [ret].
  all: repeat (rewrite bind_run; cbn [emit get_dev]; cbv beta iota).
  all: match goal with
       | |- context [with_update_context ?cs ?body ?D] =>
           assert (Hk : run_device (with_update_context cs body D) = D)
             by (apply keeps_with_update_context;
                 apply keeps_bind; [apply keeps_fetch | intros r];
                 apply keeps_for_components; intros kv;
                 apply keeps_legacy_dispatch; exact (H3 Mod_external_inverter));
           revert Hk; unfold run_device;
           destruct (with_update_context cs body D) as [[r d2] w2]; simpl; intros ->
       end.
  all: reflexivity.
Qed.

(** ** The decimal rendering of [str] *)

Open Scope N_scope.

Lemma N_of_ascii_digit (d : N) : d < 10 -> N_of_ascii (ascii_of_N (48 + d)) = 48 + d.
Proof. intros H. apply N_ascii_embedding. lia. Qed.

Lemma dec_digits_value (f : nat) :
  forall n acc v, (0 < f)%nat -> n < 10 ^ N.of_nat f ->
  exists k, dec_value v (dec_digits f n acc) = dec_value (v * 10 ^ k + n) acc.
Proof.
  induction f as [|f IH]; intros n acc v Hf Hn; [lia|].
  cbn [dec_digits]. destruct (N.ltb_spec n 10) as [Hlt|Hge].
  - exists 1. cbn [dec_value]. rewrite N_of_ascii_digit by (apply N.mod_lt; lia).
    rewrite N.mod_small by lia. rewrite N.pow_1_r. f_equal. lia.
  - destruct f as [|f'].
    + exfalso. cbn in Hn. lia.
    + assert (Hq : n / 10 < 10 ^ N.of_nat (S f')).
      { apply N.Div0.div_lt_upper_bound.
        rewrite (Nat2N.inj_succ (S f')), N.pow_succ_r' in Hn. exact Hn. }
      destruct (IH (n / 10) (String (ascii_of_N (48 + n mod 10)) acc) v ltac:(lia) Hq) as [k Hk].
      exists (k + 1). rewrite Hk. cbn [dec_value].
      rewrite N_of_ascii_digit by (apply N.mod_lt; lia). f_equal.
      rewrite N.pow_add_r, N.pow_1_r. pose proof (N.div_mod n 10) as Hdm.
      assert (Hr : 48 + n mod 10 - 48 = n mod 10) by (rewrite N.add_comm; apply N.add_sub). rewrite Hr.
      nia.
Qed.

Lemma pos_size_bound (p : positive) : Npos p < 10 ^ N.of_nat (Pos.size_nat p).
Proof.
  induction p as [p IH|p IH|]; cbn [Pos.size_nat]; rewrite Nat2N.inj_succ, N.pow_succ_r'.
  - change (Npos p~1) with (2 * Npos p + 1). lia.
  - change (Npos p~0) with (2 * Npos p). lia.
  - cbn. lia.
Qed.

Lemma str_N_value (n : N) : dec_value 0 (str_N n) = n.
Proof.
  unfold str_N.
  destruct (dec_digits_value (S (N.size_nat n)) n "" 0) as [k Hk]; [lia | |].
  - rewrite Nat2N.inj_succ, N.pow_succ_r'. destruct n as [|p]; [cbn; lia|].
    pose proof (pos_size_bound p). cbn [N.size_nat]. lia.
  - rewrite Hk. cbn. reflexivity.
Qed.

Lemma dec_digits_head (f : nat) :
  forall n acc, (0 < f)%nat ->
  exists d rest, d < 10 /\ dec_digits f n acc = String (ascii_of_N (48 + d)) rest.
Proof.
  induction f as [|f IH]; intros n acc Hf; [lia|].
  cbn [dec_digits]. destruct (N.ltb n 10).
  - exists (n mod 10), acc. split; [apply N.mod_lt; lia | reflexivity].
  - destruct f as [|f'].
    + exists (n mod 10), acc. split; [apply N.mod_lt; lia | reflexivity].
    + apply IH. lia.
Qed.

Lemma str_N_head (n : N) :
  exists d rest, d < 10 /\ str_N n = String (ascii_of_N (48 + d)) rest.
Proof. unfold str_N. apply dec_digits_head. lia. Qed.

Lemma str_N_not_char (n : N) (c : ascii) (rest : string) :
  N_of_ascii c < 48 \/ 57 < N_of_ascii c -> str_N n <> String c rest.
Proof.
  intros Hc E. destruct (str_N_head n) as (d & rest' & Hd & E').
  rewrite E' in E.
  apply (f_equal (fun s => match s with String c _ => N_of_ascii c | EmptyString => 0 end)) in E.
  cbv beta iota in E. rewrite N_of_ascii_digit in E by exact Hd. lia.
Qed.

Lemma str_N_inj (n1 n2 : N) : str_N n1 = str_N n2 -> n1 = n2.
Proof.
  intros H. rewrite <- (str_N_value n1), <- (str_N_value n2), H. reflexivity.
Qed.

Lemma str_int_inj (z1 z2 : Z) : str_int z1 = str_int z2 -> z1 = z2.
Proof.
  unfold str_int.
  destruct (Z.ltb_spec z1 0) as [H1|H1], (Z.ltb_spec z2 0) as [H2|H2]; cbn [append]; intros E.
  - injection E as E. apply str_N_inj in E. lia.
  - exfalso. symmetry in E. revert E. apply str_N_not_char. cbn. lia.
  - exfalso. revert E. apply str_N_not_char. cbn. lia.
  - apply str_N_inj in E. lia.
Qed.

Lemma str_opt_int_inj (o1 o2 : option Z) : str_opt_int o1 = str_opt_int o2 -> o1 = o2.
Proof.
  assert (Hnone : forall z, str_int z <> "None").
  { intros z. unfold str_int. destruct (Z.ltb z 0).
    - cbn [append]. intros [=].
    - apply str_N_not_char. cbn. lia. }
  destruct o1 as [z1|], o2 as [z2|]; cbn; intros H.
  - f_equal. apply str_int_inj. exact H.
  - exfalso. exact (Hnone z1 H).
  - exfalso. exact (Hnone z2 (eq_sym H)).
  - reflexivity.
Qed.

Lemma append_cancel_l (p s1 s2 : string) : (p ++ s1 = p ++ s2)%string -> s1 = s2.
Proof. induction p as [|c p IH]; cbn; [auto | intros H; injection H as H; auto]. Qed.

Close Scope N_scope.

(** The dict key ["component" + str(component_config.id)] determines the
    id: two configurations get the same key in [Device.components] only
    when their ids are equal (also telling [None] apart from every int and
    negative ids from non-negative ones). *)
Theorem component_key_injective (c1 c2 : comp_config) :
  component_key c1 = component_key c2 -> cc_id c1 = cc_id c2.
Proof.
  unfold component_key. intros H. apply append_cancel_l in H. apply str_opt_int_inj. exact H.
Qed.

End Proofs.

(** * Concrete runs *)

Example str_int_examples :
  (str_int 0, str_int 4, str_int 1234, str_int (-50)) = ("0", "4", "1234", "-50").
Proof. reflexivity. Qed.

(** C1 witness: the battery raises, the counter after it is not called. *)
Lemma device_update_stops_at_failure_witness :
  match @device_update (test_collab (Some 1%Z) (Ok 42)) two_component_device with
  | (_, _, w) => updates_of w = [(bat1, 42)]
  end.
Proof.
  apply (@device_update_stops_at_failure (test_collab (Some 1%Z) (Ok 42))
           two_component_device test_batterx 42 [] [("component2", counter2)]
           "component1" bat1 update_error).
  - reflexivity.
  - simpl. constructor; [simpl; intros [H|[]]; discriminate | constructor; [simpl; tauto | constructor]].
  - reflexivity.
  - reflexivity.
  - simpl. tauto.
  - reflexivity.
Defined.

(** C1 counterexample: the counter succeeds but never receives the
    payload, because the battery before it raised. *)
Lemma failing_component_blocks_sibling :
  match @device_update (test_collab (Some 1%Z) (Ok 42)) two_component_device with
  | (_, _, w) => @component_update (test_collab (Some 1%Z) (Ok 42)) counter2 42 = None /\
                 ~ In (counter2, 42) (updates_of w)
  end.
Proof. vm_compute. split; [reflexivity | intros [H|[]]; discriminate]. Defined.

(** C2 witness: one request, both components updated with its payload. *)
Lemma device_update_single_fetch_witness :
  match @device_update (test_collab None (Ok 42)) two_component_device with
  | (_, _, w) =>
      fetches_of w = [("http://192.168.0.10/api.php?get=currentstate", 5%Z)] /\
      updates_of w = [(bat1, 42); (counter2, 42)]
  end.
Proof.
  pose proof (@device_update_single_fetch (test_collab None (Ok 42))
                two_component_device test_batterx) as H.
  destruct (@device_update (test_collab None (Ok 42)) two_component_device) as [[r d'] w].
  destruct H as [Hf Hu].
  - discriminate.
  - simpl. constructor; [simpl; intros [H|[]]; discriminate | constructor; [simpl; tauto | constructor]].
  - reflexivity.
  - split; [exact Hf|]. apply (Hu 42); [reflexivity|].
    intros kc [<-|[<-|[]]]; reflexivity.
Defined.

(** C2 counterexample: with one raising component, not every component
    of the dict is updated once. *)
Lemma single_fetch_not_all_updated :
  match @device_update (test_collab (Some 1%Z) (Ok 42)) two_component_device with
  | (_, _, w) => length (updates_of w) = 1%nat /\
                 length (components two_component_device) = 2%nat
  end.
Proof. vm_compute. split; reflexivity. Defined.

(** C4 witness: a timed-out request, every slot released with the error. *)
Lemma device_update_fetch_error_witness :
  match @device_update (test_collab None (Err timeout_error)) two_component_device with
  | (r, _, w) => r = Ok tt /\ updates_of w = []
  end.
Proof.
  pose proof (@device_update_fetch_error (test_collab None (Err timeout_error))
                two_component_device test_batterx timeout_error) as H.
  destruct (@device_update (test_collab None (Err timeout_error)) two_component_device)
    as [[r d'] w].
  destruct H as (Hr & _ & Hu & _); [discriminate | reflexivity | reflexivity |].
  split; assumption.
Defined.

(** C5 witness. *)
Lemma device_update_empty_witness :
  @device_update (test_collab None (Ok 42)) configured_empty_device =
  (Ok tt, configured_empty_device,
   [EvDebugComponents []; EvWarning (not_configured_message "BatterX")]).
Proof.
  apply (@device_update_empty (test_collab None (Ok 42)) configured_empty_device test_batterx);
    reflexivity.
Defined.

(** C6 witness: on the device holding the battery (id 1) and the counter
    (id 2), adding a counter with id 1 replaces the battery in place under
    "component1"; the entry "component2" is untouched and no key is added. *)
Lemma add_component_keys_by_id_witness :
  NoDup (map fst (components two_component_device)) /\
  match @add_component (test_collab None (Ok 42)) (setup_of "counter" 1) two_component_device with
  | (Ok _, d', _) =>
      (exists comp,
        let key := "component" ++ str_opt_int (cc_id (c_config comp)) in
        NoDup (map fst (components d')) /\
        dict_get key (components d') = Some comp /\
        (forall k, k <> key ->
           dict_get k (components d') = dict_get k (components two_component_device)) /\
        map fst (components d') =
          (if existsb (String.eqb key) (map fst (components two_component_device))
           then map fst (components two_component_device)
           else map fst (components two_component_device) ++ [key])%list) /\
      map fst (components d') = ["component1"; "component2"] /\
      map (fun kc => c_class (snd kc)) (components d') = [BatterXCounter; BatterXCounter] /\
      dict_get "component2" (components d') = Some counter2
  | (Err _, d', _) => d' = two_component_device
  end.
Proof.
  assert (Hnd : NoDup (map fst (components two_component_device))).
  { simpl. constructor; [simpl; intros [H|[]]; discriminate | constructor; [simpl; tauto | constructor]]. }
  split; [exact Hnd|].
  generalize (@add_component_keys_by_id (test_collab None (Ok 42)) (setup_of "counter" 1)
                two_component_device Hnd).
  vm_compute. intros H. split; [exact H | split; [reflexivity | split; reflexivity]].
Defined.

(** C6 counterexample: a battery and a counter with the same id 1 do not
    coexist; the counter replaces the battery under "component1". *)
Lemma same_id_other_type_replaces :
  match @bind (test_collab None (Ok 42)) _ _
          (add_component (setup_of "bat" 1)) (fun _ => add_component (setup_of "counter" 1))
          configured_empty_device with
  | (r, d', _) =>
      r = Ok tt /\ map fst (components d') = ["component1"] /\
      map (fun kc => c_class (snd kc)) (components d') = [BatterXCounter]
  end.
Proof. vm_compute. split; [reflexivity | split; reflexivity]. Defined.



(** C8 witness: integer readings. *)
Lemma combine_step_symmetric_witness :
  @combine_step (test_collab None (Ok 42)) bat1 5%Z 3%Z =
  @combine_step (test_collab None (Ok 42)) bat1 3%Z 5%Z.
Proof.
  apply (@combine_step_symmetric (test_collab None (Ok 42)) bat1 5%Z 3%Z).
  intros x y. simpl. lia.
Defined.

(** * Concrete runs of the further properties *)

Lemma test_collab_plain (failing : option Z) (net : result nat) :
  @plain_collab (test_collab failing net).
Proof.
  split; [intros b; reflexivity|].
  split; [intros m c; reflexivity|].
  split; [intros []; reflexivity | intros cls i c; reflexivity].
Qed.

(** Witness: an unknown component type given to [read_legacy]. *)
Lemma read_legacy_unknown_type_witness :
  @read_legacy (test_collab None (Ok 42)) "speicher" "192.168.0.10" (Some 1%Z) None None 0
    empty_device =
  (Err (Exception "illegal component type speicher. Allowed values: bat,counter,inverter,external_inverter"),
   {| components := [];
      device_config := Some {| dev_id := 0; dev_name := "BatterX";
                               configuration := {| ip_address := "192.168.0.10" |} |} |},
   []).
Proof.
  apply (@read_legacy_unknown_type (test_collab None (Ok 42))); [intros b; reflexivity | reflexivity].
Defined.

(** Witness: adding the external inverter to a configured device. *)
Lemma external_inverter_never_added_witness :
  @_add_component (test_collab None (Ok 42)) "external_inverter" (Some 4%Z) two_component_device =
  (Err (Exception "illegal component type external_inverter. Allowed values: bat,counter,inverter"),
   two_component_device, []).
Proof.
  destruct (@external_inverter_never_added (test_collab None (Ok 42)) (Some 4%Z)
              two_component_device eq_refl) as [e [H [He|He]]].
  - rewrite H, He. reflexivity.
  - discriminate He.
Defined.

(** Witness: an inverter read with an external inverter configured. *)
Lemma read_legacy_ext_inverter_no_output_witness :
  let w := run_events (@read_legacy (test_collab None (Ok 42)) "inverter" "192.168.0.10"
                         (Some 1%Z) None None 1 empty_device) in
  publishes_of w = [] /\ (forall c p, In (EvUpdate c p) w -> c_class c <> BatterXInverter).
Proof.
  apply (@read_legacy_ext_inverter_no_output (test_collab None (Ok 42))); [reflexivity | lia].
Defined.

(** Witness: inverter, counter and battery read with one request. *)
Lemma read_legacy_updates_all_witness :
  match @read_legacy (test_collab None (Ok 42)) "inverter" "192.168.0.10" (Some 1%Z)
          (Some "bezug_batterx") (Some "speicher_batterx") 0 empty_device with
  | (r, d', w) =>
      fetches_of w <> [] /\ r = Ok tt /\
      updates_of w = map (fun kc => (snd kc, 42)) (components d') /\
      length (components d') = 3%nat
  end.
Proof.
  generalize (@read_legacy_updates_all (test_collab None (Ok 42)) "inverter" "192.168.0.10"
                (Some 1%Z) (Some "bezug_batterx") (Some "speicher_batterx") empty_device 42
                eq_refl (fun c => eq_refl)).
  vm_compute. intros H. split; [discriminate|].
  destruct H as [Hr Hu]; [discriminate|]. split; [exact Hr | split; [exact Hu | reflexivity]].
Defined.

(** Witness: [num = 0] with the BatterX counter requested: the counter
    replaces the inverter under "component0". *)
Lemma read_legacy_components_witness :
  components (run_device (@read_legacy (test_collab None (Ok 42)) "inverter" "192.168.0.10"
                            (Some 0%Z) (Some "bezug_batterx") None 0 empty_device)) =
  [("component0",
    {| c_class := BatterXCounter; c_device_id := 0;
       c_config := {| cc_type := "counter"; cc_id := Some 0%Z; cc_params := [] |} |})].
Proof.
  etransitivity.
  - apply (@read_legacy_components (test_collab None (Ok 42)) "inverter" "192.168.0.10"
             (Some 0%Z) (Some "bezug_batterx") None 0 empty_device BatterXInverter Mod_inverter).
    + apply test_collab_plain.
    + reflexivity.
    + reflexivity.
  - vm_compute. reflexivity.
Defined.

(** Witness: a battery and a counter configured with the same id share
    the key. *)
Lemma component_key_injective_witness :
  cc_id {| cc_type := "bat"; cc_id := Some (-12)%Z; cc_params := [] |} =
  cc_id {| cc_type := "counter"; cc_id := Some (-12)%Z; cc_params := [] |}.
Proof. apply component_key_injective. reflexivity. Defined.
